(** * GM8050 reader: the serial protocol engine of [basic.py]

    A shallow embedding of the class [GM8050Reader]: the Modbus CRC16, the
    frame builder, the polling read cycle, the register decoders and the
    device operations built on them, with theorems about them.

    Conventions.
    - A Python [bytes] or [bytearray] is a [list byte], a Python [int] a [Z],
      a Python [str] a [string], a Python [float] a primitive binary64
      [float].
    - The reader object ([self.byte_array]), its serial port and what
      surrounds them (the clock, the bytes the device sends, the faults of
      the port) form one record [World]. A method is a function from the
      world to an [Outcome]: a value and the new world, or an exception and
      the new world.
    - Time is an integer number of microseconds. Each reading of
      [time.time()] comes [tick] or more after the previous one, which is
      what makes the polling loop end; the world scripts anything beyond.
    - The world scripts the port too: what each evaluation of
      [ser.in_waiting] finds or whether it raises, and whether each
      [ser.write] raises.
    - The console is left out of these methods: they are the reader while
      the console takes every message. The module [Console] puts [print]
      back into [send_command] and [read_scan_parameters] and scripts its
      exceptions. *)

From Stdlib Require Import ZArith List Bool Lia Strings.String Strings.Ascii Strings.Byte.
From Stdlib Require Import Floats.
Import ListNotations.

Local Open Scope Z_scope.

(** ** Bytes and integers *)

(** The integer a byte stands for, as Python gives it when a [bytes] object
    is indexed or iterated. *)
Definition int_of_byte (b : byte) : Z := Z.of_N (Byte.to_N b).

(** [bytes([...])]: every item has to be in [range(256)], otherwise the
    constructor raises [ValueError] ([None] here). *)
Definition byte_of_int (z : Z) : option byte :=
  if (0 <=? z) && (z <? 256) then Byte.of_N (Z.to_N z) else None.

Fixpoint bytes_of_ints (zs : list Z) : option (list byte) :=
  match zs with
  | [] => Some []
  | z :: rest =>
      match byte_of_int z, bytes_of_ints rest with
      | Some b, Some bs => Some (b :: bs)
      | _, _ => None
      end
  end.

(** ** Checksum engine: [GM8050Reader.calc_crc16] *)

Module Crc.

(** The body of [for _ in range(8)]. *)
Definition bit_step (crc : Z) : Z :=
  if negb (Z.land crc 0x0001 =? 0)
  then Z.lxor (Z.shiftr crc 1) 0xA001
  else Z.shiftr crc 1.

(** [for _ in range(n)] around [bit_step]. *)
Fixpoint bit_loop (n : nat) (crc : Z) : Z :=
  match n with
  | O => crc
  | S n' => bit_loop n' (bit_step crc)
  end.

(** The body of [for byte in data]. *)
Definition byte_step (crc : Z) (b : byte) : Z :=
  bit_loop 8 (Z.lxor crc (int_of_byte b)).

(** [for byte in data] from a given accumulator. *)
Fixpoint byte_loop (data : list byte) (crc : Z) : Z :=
  match data with
  | [] => crc
  | b :: rest => byte_loop rest (byte_step crc b)
  end.

End Crc.

Definition calc_crc16 (data : list byte) : Z := Crc.byte_loop data 0xFFFF.

(** The checksum as section 4.1 of the specification words it, kept apart
    from [calc_crc16] to compare the two. *)
Module CrcReference.

(** "XOR it into the low byte of the accumulator": the high part of the
    accumulator is kept, the low byte is combined with the input. *)
Definition xor_low_byte (acc b : Z) : Z :=
  Z.lor (Z.shiftl (Z.shiftr acc 8) 8) (Z.lxor (Z.land acc 0xFF) b).

(** "if the low bit is set, shift right and XOR with 0xA001, else shift
    right only". *)
Definition round (acc : Z) : Z :=
  if Z.testbit acc 0 then Z.lxor (Z.shiftr acc 1) 0xA001 else Z.shiftr acc 1.

Definition feed (acc : Z) (b : byte) : Z :=
  Nat.iter 8 round (xor_low_byte acc (int_of_byte b)).

Definition checksum (data : list byte) : Z := fold_left feed data 0xFFFF.

End CrcReference.


(** ** Frame builder: [GM8050Reader.build_command] *)

(** The value of a hexadecimal digit, either case. *)
Definition hex_value (c : ascii) : option Z :=
  let n := Z.of_N (N_of_ascii c) in
  if (48 <=? n) && (n <=? 57) then Some (n - 48)
  else if (97 <=? n) && (n <=? 102) then Some (n - 87)
  else if (65 <=? n) && (n <=? 70) then Some (n - 55)
  else None.

(** ASCII white space: space, and tab to carriage return. *)
Definition is_space (c : ascii) : bool :=
  let n := Z.of_N (N_of_ascii c) in
  (n =? 32) || ((9 <=? n) && (n <=? 13)).

(** [bytes.fromhex]: white space is skipped before a byte, a byte is two
    adjacent hexadecimal digits, anything else raises [ValueError] ([None]). *)
Fixpoint fromhex (s : string) : option (list byte) :=
  match s with
  | EmptyString => Some []
  | String c rest =>
      if is_space c then fromhex rest
      else
        match hex_value c, rest with
        | Some top, String d rest' =>
            match hex_value d with
            | Some bot =>
                match byte_of_int (top * 16 + bot), fromhex rest' with
                | Some b, Some bs => Some (b :: bs)
                | _, _ => None
                end
            | None => None
            end
        | _, _ => None
        end
  end.

(** [build_command(address, function, data)]; [None] when [fromhex] or
    [bytes] raises. *)
Definition build_command (address function data : string) : option (list byte) :=
  let cmd_hex := (address ++ function ++ data)%string in
  match fromhex cmd_hex with
  | Some cmd_bytes =>
      let crc := calc_crc16 cmd_bytes in
      match bytes_of_ints [Z.land crc 0xFF; Z.land (Z.shiftr crc 8) 0xFF] with
      | Some tail => Some (cmd_bytes ++ tail)
      | None => None
      end
  | None => None
  end.

(** Upper-case hexadecimal digit of a value below 16. *)
Definition hex_digit_upper (d : Z) : ascii :=
  if d <? 10 then ascii_of_N (Z.to_N (48 + d)) else ascii_of_N (Z.to_N (55 + d)).

(** The two-digit text of a byte, [f"{b:02X}"]: the form in which the
    callers spell addresses, function codes and payloads. *)
Definition hex_of_byte (b : byte) : string :=
  let v := int_of_byte b in
  String (hex_digit_upper (v / 16)) (String (hex_digit_upper (v mod 16)) EmptyString).

Fixpoint hex_of_bytes (bs : list byte) : string :=
  match bs with
  | [] => EmptyString
  | b :: rest => (hex_of_byte b ++ hex_of_bytes rest)%string
  end.

(** Digits of [n], most significant first, in front of [acc]. *)
Fixpoint hex_upper (fuel : nat) (n : Z) (acc : string) : string :=
  match fuel with
  | O => acc
  | S fuel' =>
      if n =? 0 then acc
      else hex_upper fuel' (n / 16) (String (hex_digit_upper (n mod 16)) acc)
  end.

Fixpoint zero_pad (missing : nat) (s : string) : string :=
  match missing with
  | O => s
  | S m => String "0" (zero_pad m s)
  end.

(** [f"{n:04X}"] for [0 <= n], which is how the reader uses it. *)
Definition format_04X (n : Z) : string :=
  let digits := hex_upper (S (Z.to_nat (Z.log2 n))) n EmptyString in
  zero_pad (4 - String.length digits) digits.

(** ** Register decoder *)

(** [len(bs)]. *)
Definition len (bs : list byte) : Z := Z.of_nat (List.length bs).

(** [bs[i]] as an integer, for an index [0 <= i] the caller has checked. *)
Definition item (bs : list byte) (i : Z) : Z := int_of_byte (nth (Z.to_nat i) bs x00).

(** [bs[i]] for [0 <= i], raising [IndexError] ([None]) past the end. *)
Definition getitem (bs : list byte) (i : Z) : option Z :=
  if (0 <=? i) && (i <? len bs) then Some (item bs i) else None.

(** The slice [bs[lo:hi]] for [0 <= lo <= hi]; it stops at the end of [bs]. *)
Definition slice {A : Type} (lo hi : Z) (l : list A) : list A :=
  firstn (Z.to_nat (hi - lo)) (skipn (Z.to_nat lo) l).

(** [range(n)]. *)
Definition range (n : Z) : list Z := map Z.of_nat (seq 0 (Z.to_nat n)).

(** [convert_bytes_to_uint16]. *)
Definition convert_bytes_to_uint16 (byte_array : list byte) : option Z :=
  match getitem byte_array 0, getitem byte_array 1 with
  | Some hi, Some lo => Some (Z.lor (Z.shiftl hi 8) lo)
  | _, _ => None
  end.

(** The binary64 value of a Python [int]: the nearest one, ties to even. *)
Definition float_of_int (z : Z) : float :=
  SF2Prim (binary_normalize prec emax z 0 false).

(** The value of an IEEE-754 binary32 word, widened to binary64 as
    [struct.unpack] does (every binary32 value is a binary64 value). *)
Definition float_of_bits32 (w : Z) : float :=
  let sign := Z.testbit w 31 in
  let e := Z.land (Z.shiftr w 23) 0xFF in
  let m := Z.land w 0x7FFFFF in
  let magnitude :=
    if e =? 255 then (if m =? 0 then infinity else nan)
    else if e =? 0 then Z.ldexp (float_of_int m) (-149)
    else Z.ldexp (float_of_int (m + 0x800000)) (e - 150) in
  if sign then (- magnitude)%float else magnitude.

(** [struct.unpack('>f', bs)[0]]; [struct.error] ([None]) unless [bs] has
    four bytes. *)
Definition unpack_float_be (bs : list byte) : option float :=
  match bs with
  | [b0; b1; b2; b3] =>
      Some (float_of_bits32
              (Z.lor (Z.shiftl (int_of_byte b0) 24)
                 (Z.lor (Z.shiftl (int_of_byte b1) 16)
                    (Z.lor (Z.shiftl (int_of_byte b2) 8) (int_of_byte b3)))))
  | _ => None
  end.

Definition convert_bytes_to_float (byte_array : list byte) : option float :=
  unpack_float_be byte_array.

(** ** Python numbers

    [read_scan_parameters] returns the integers [(0, 0, 0)] on failure and
    floats on success, and [read_spectrum] compares and adds them. *)

Inductive pynum : Type :=
| PyInt (z : Z)
| PyFloat (f : float).

Definition py_float (x : pynum) : float :=
  match x with
  | PyInt z => float_of_int z
  | PyFloat f => f
  end.

Definition py_add (x y : pynum) : pynum :=
  match x, y with
  | PyInt a, PyInt b => PyInt (a + b)
  | _, _ => PyFloat (py_float x + py_float y)
  end.

Definition py_mul (x y : pynum) : pynum :=
  match x, y with
  | PyInt a, PyInt b => PyInt (a * b)
  | _, _ => PyFloat (py_float x * py_float y)
  end.

(** [x <= y]. *)
Definition py_le (x y : pynum) : bool :=
  match x, y with
  | PyInt a, PyInt b => a <=? b
  | _, _ => (py_float x <=? py_float y)%float
  end.

(** [x == y]. *)
Definition py_eq (x y : pynum) : bool :=
  match x, y with
  | PyInt a, PyInt b => a =? b
  | _, _ => (py_float x =? py_float y)%float
  end.

(** [x / 1000.0] and the like: true division by a float. *)
Definition py_div_float (x : Z) (d : float) : float := (float_of_int x / d)%float.

(** ** The reader, its port and its environment *)

(** What one evaluation of [ser.in_waiting] finds: bytes that reached the
    port since the previous one (maybe none), or a port that fails. *)
Inductive Arrival : Type :=
| Bytes (chunk : list byte)
| Fault.

(** Time is counted in microseconds. Every reading of the clock comes at
    least [tick] later than the previous one, plus what [delays] says. *)
Record World : Type := mkWorld {
  byte_array : list byte;        (* self.byte_array *)
  now : Z;                       (* the wall clock *)
  tick : positive;               (* least time between two readings *)
  delays : list N;               (* further time before the next readings *)
  rx : list byte;                (* input buffer of the port *)
  arrivals : list Arrival;       (* what the next in_waiting queries find *)
  write_faults : list bool;      (* whether the next writes fail *)
  sent : list (list byte)        (* frames written so far, oldest first *)
}.

Definition set_byte_array (w : World) (b : list byte) : World :=
  mkWorld b (now w) (tick w) (delays w) (rx w) (arrivals w) (write_faults w) (sent w).

Definition set_clock (w : World) (t : Z) (ds : list N) : World :=
  mkWorld (byte_array w) t (tick w) ds (rx w) (arrivals w) (write_faults w) (sent w).

Definition set_input (w : World) (pending : list byte) (arr : list Arrival) : World :=
  mkWorld (byte_array w) (now w) (tick w) (delays w) pending arr (write_faults w) (sent w).

Definition set_output (w : World) (faults : list bool) (log : list (list byte)) : World :=
  mkWorld (byte_array w) (now w) (tick w) (delays w) (rx w) (arrivals w) faults log.

(** How a call ends: with a value, with a Python exception, or, for the
    polling loop, with its iteration budget used up. *)
Inductive Outcome (A : Type) : Type :=
| Ret (a : A) (w : World)
| Raise (w : World)
| OutOfFuel.

Arguments Ret {A} a w.
Arguments Raise {A} w.
Arguments OutOfFuel {A}.

Definition M (A : Type) : Type := World -> Outcome A.

Definition ret {A : Type} (a : A) : M A := fun w => Ret a w.

Definition raise {A : Type} : M A := fun w => Raise w.

Definition bind {A B : Type} (m : M A) (k : A -> M B) : M B :=
  fun w =>
    match m w with
    | Ret a w' => k a w'
    | Raise w' => Raise w'
    | OutOfFuel => OutOfFuel
    end.

(** [try: body / except Exception: handler]. *)
Definition try_except {A : Type} (body handler : M A) : M A :=
  fun w =>
    match body w with
    | Raise w' => handler w'
    | other => other
    end.

(** A pure step that may raise. *)
Definition lift {A : Type} (o : option A) : M A :=
  match o with
  | Some a => ret a
  | None => raise
  end.

Declare Scope monad_scope.
Delimit Scope monad_scope with monad.
Notation "x <- m ;; k" := (bind m (fun x => k))
  (at level 61, m at next level, right associativity) : monad_scope.
Notation "m ;; k" := (bind m (fun _ => k))
  (at level 61, right associativity) : monad_scope.
Local Open Scope monad_scope.

Definition get_byte_array : M (list byte) := fun w => Ret (byte_array w) w.

Definition put_byte_array (b : list byte) : M unit :=
  fun w => Ret tt (set_byte_array w b).

(** [time.time()]. *)
Definition time_time : M Z :=
  fun w =>
    let t := now w + Z.pos (tick w) + Z.of_N (hd 0%N (delays w)) in
    Ret t (set_clock w t (tl (delays w))).

(** [self.ser.reset_input_buffer()]. *)
Definition ser_reset_input_buffer : M unit :=
  fun w => Ret tt (set_input w [] (arrivals w)).

(** [self.ser.in_waiting]. *)
Definition ser_in_waiting : M Z :=
  fun w =>
    match arrivals w with
    | [] => Ret (Z.of_nat (List.length (rx w))) w
    | Bytes chunk :: rest =>
        let pending := rx w ++ chunk in
        Ret (Z.of_nat (List.length pending)) (set_input w pending rest)
    | Fault :: rest => Raise (set_input w (rx w) rest)
    end.

(** [self.ser.read(n)]: at most [n] of the pending bytes. *)
Definition ser_read (n : Z) : M (list byte) :=
  fun w =>
    let k := Z.to_nat n in
    Ret (firstn k (rx w)) (set_input w (skipn k (rx w)) (arrivals w)).

(** [self.ser.write(cmd)]. *)
Definition ser_write (cmd : list byte) : M unit :=
  fun w =>
    if hd false (write_faults w)
    then Raise (set_output w (tl (write_faults w)) (sent w))
    else Ret tt (set_output w (tl (write_faults w)) (sent w ++ [cmd])).

(** ** [GM8050Reader.send_command] *)

Definition send_command (address function data : string) : M bool :=
  try_except
    (cmd <- lift (build_command address function data) ;;
     ser_write cmd ;;
     ret true)
    (ret false).

(** ** Transport reader: [GM8050Reader.read_response] *)

(** The strings [read_response] returns, one constructor each, in the
    order of the constructors: "非法功能码" (illegal function code),
    "非法数据地址" (illegal data address), "非法数据值" (illegal data value),
    f"未知错误码: {error_code}" (unknown error code), "成功" (success),
    "无数据" (no data), "响应超时" (response timeout). *)
Inductive Status : Type :=
| IllegalFunction
| IllegalDataAddress
| IllegalDataValue
| UnknownErrorCode (error_code : Z)
| Success
| NoData
| ResponseTimeout.

(** [resp_status == "success"]. *)
Definition is_success (s : Status) : bool :=
  match s with
  | Success => true
  | _ => false
  end.

(** The error code a device-exception status carries; the three named
    messages stand for the codes 1, 2 and 3. *)
Definition device_exception_code (s : Status) : option Z :=
  match s with
  | IllegalFunction => Some 1
  | IllegalDataAddress => Some 2
  | IllegalDataValue => Some 3
  | UnknownErrorCode c => Some c
  | _ => None
  end.

(** The seconds of a timeout, in microseconds. *)
Definition seconds (s : Z) : Z := s * 1000000.

(** The 0.1 s of the quick no-data test. *)
Definition tenth_of_a_second : Z := 100000.

Definition min_data_length : Z := 5.

(** The "basic errors" block: the status to return at once, if any. *)
Definition check_exception (buf : list byte) : option Status :=
  if len buf >=? 3 then
    if negb (Z.land (item buf 1) 0x80 =? 0) then
      if len buf >=? 5 then
        let error_code := item buf 2 in
        if error_code =? 1 then Some IllegalFunction
        else if error_code =? 2 then Some IllegalDataAddress
        else if error_code =? 3 then Some IllegalDataValue
        else Some (UnknownErrorCode error_code)
      else None
    else None
  else None.

(** How one turn of the [while] loop ends: at a [return], or at the end of
    the body with the time of the last arrival as it then stands. *)
Inductive Turn : Type :=
| Return (status : Status)
| Continue (last_data_time : Z).

(** The quick test that closes the body of the loop. *)
Definition no_data_test (last_data_time : Z) : M Turn :=
  t <- time_time ;;
  buf <- get_byte_array ;;
  if (t - last_data_time >? tenth_of_a_second) && (len buf <? min_data_length)
  then ret (Return NoData)
  else ret (Continue last_data_time).

(** The condition of the [while] and, when it holds, the body. *)
Definition poll_turn (expected_len timeout start_time last_data_time : Z) : M Turn :=
  t <- time_time ;;
  if t - start_time <? timeout then
    n <- ser_in_waiting ;;
    if negb (n =? 0) then
      size <- ser_in_waiting ;;
      chunk <- ser_read size ;;
      buf <- get_byte_array ;;
      put_byte_array (buf ++ chunk) ;;
      last_data_time <- time_time ;;
      buf <- get_byte_array ;;
      match check_exception buf with
      | Some status => ret (Return status)
      | None =>
          if len buf >=? expected_len then ret (Return Success)
          else no_data_test last_data_time
      end
    else no_data_test last_data_time
  else ret (Return ResponseTimeout).

(** The [while] loop, at most [fuel] turns of it. *)
Fixpoint poll_loop (fuel : nat) (expected_len timeout start_time last_data_time : Z)
  : M Status :=
  match fuel with
  | O => fun _ => OutOfFuel
  | S fuel' =>
      turn <- poll_turn expected_len timeout start_time last_data_time ;;
      match turn with
      | Return status => ret status
      | Continue last_data_time =>
          poll_loop fuel' expected_len timeout start_time last_data_time
      end
  end.

(** Turns that are always enough: the clock moves by a tick or more on each
    reading, and every turn reads it. *)
Definition poll_budget (timeout : Z) (w : World) : nat :=
  S (Z.to_nat (timeout / Z.pos (tick w))).

Definition read_response (expected_len timeout : Z) : M Status :=
  ser_reset_input_buffer ;;
  put_byte_array [] ;;
  start_time <- time_time ;;
  fun w => poll_loop (poll_budget timeout w) expected_len timeout start_time start_time w.

(** The state in which the loop of a read cycle starts: input dropped,
    buffer emptied, clock read once. *)
Definition cycle_start (w : World) : World :=
  set_clock (set_byte_array (set_input w [] (arrivals w)) [])
    (now w + Z.pos (tick w) + Z.of_N (hd 0%N (delays w))) (tl (delays w)).

(** Nothing is waiting, nothing will come, and the clock runs steadily. *)
Definition silent (w : World) : Prop :=
  arrivals w = [] /\ rx w = [] /\ delays w = [].

(** ** Device operations *)

(** *** [GM8050Reader.read_center_wavelengths] *)

(** [for i in range(32)]: decode, keep what is above zero. *)
Fixpoint center_loop (indices : list Z) (data : list byte) (results : list float)
  : option (list float) :=
  match indices with
  | [] => Some results
  | i :: rest =>
      let idx := i * 4 in
      match unpack_float_be (slice idx (idx + 4) data) with
      | Some value =>
          center_loop rest data
            (if (zero <? value)%float then results ++ [value] else results)
      | None => None
      end
  end.

Definition read_center_wavelengths (address : string) : M (list float) :=
  let cmd_data := "03000200"%string in
  sent_ok <- send_command address "14" cmd_data ;;
  if negb sent_ok then ret []
  else
    resp_status <- read_response (4 + 1024) (seconds 20) ;;
    if negb (is_success resp_status) then ret []
    else
      buf <- get_byte_array ;;
      let data := slice 4 (4 + 1024) buf in
      lift (center_loop (range 32) data []).

(** *** [GM8050Reader.read_scan_parameters] *)

(** The block the method repeats for the registers 1005H, 1006H and 1007H:
    one request, one response, the register value; [None] where the method
    leaves with [return (0, 0, 0)]. *)
Definition scan_register (data : string) : M (option Z) :=
  sent_ok <- send_command "01" "03" data ;;
  if negb sent_ok then ret None
  else
    resp_status <- read_response 7 (seconds 1) ;;
    buf <- get_byte_array ;;
    if negb (is_success resp_status) || (len buf <? 7) then ret None
    else
      hi <- lift (getitem buf 3) ;;
      lo <- lift (getitem buf 4) ;;
      ret (Some (Z.lor (Z.shiftl hi 8) lo)).

(** The tuple [(0, 0, 0)]. *)
Definition zero_tuple : pynum * pynum * pynum := (PyInt 0, PyInt 0, PyInt 0).

Definition read_scan_parameters : M (pynum * pynum * pynum) :=
  try_except
    (start <- scan_register "10050001" ;;
     match start with
     | None => ret zero_tuple
     | Some start_reg =>
         stop <- scan_register "10060001" ;;
         match stop with
         | None => ret zero_tuple
         | Some stop_reg =>
             step <- scan_register "10070001" ;;
             match step with
             | None => ret zero_tuple
             | Some step_reg =>
                 let start_wl := py_add (PyInt 1520) (PyFloat (py_div_float start_reg 1000)) in
                 let stop_wl := py_add (PyInt 1520) (PyFloat (py_div_float stop_reg 1000)) in
                 let step_wl := PyFloat (py_div_float step_reg 1000) in
                 ret (start_wl, stop_wl, step_wl)
             end
         end
     end)
    (ret zero_tuple).

(** *** [GM8050Reader.read_spectrum] *)

Definition num_points : Z := 2051.

(** The dictionary [channel_base_addrs]; [None] is [KeyError]. *)
Definition channel_base_addrs (ch_idx : Z) : option Z :=
  match ch_idx with
  | 0 => Some 0x2000
  | 1 => Some 0x3000
  | 2 => Some 0x4000
  | 3 => Some 0x5000
  | _ => None
  end.

(** One turn of [for i in range(num_points)]: the value appended. *)
Definition sample (data_bytes : list byte) (i : Z) : Z :=
  let idx := i * 2 in
  if idx + 1 <? len data_bytes
  then Z.lor (Z.shiftl (item data_bytes idx) 8) (item data_bytes (idx + 1))
  else 0.

(** One turn of [for ch_idx in range(4)]: the list appended to [spectrum]. *)
Definition read_channel (ch_idx : Z) : M (list Z) :=
  base_addr <- lift (channel_base_addrs ch_idx) ;;
  let cmd_start := format_04X base_addr in
  let cmd_count := format_04X num_points in
  let cmd := ("0114" ++ cmd_start ++ cmd_count)%string in
  sent_ok <- send_command (substring 0 2 cmd) (substring 2 2 cmd)
               (substring 4 (String.length cmd - 4) cmd) ;;
  if negb sent_ok then ret []
  else
    let expected_length := 4 + 2 * num_points in
    resp_status <- read_response expected_length (seconds 1) ;;
    if negb (is_success resp_status) then ret []
    else
      buf <- get_byte_array ;;
      let data_bytes := slice 4 (4 + 2 * num_points) buf in
      ret (map (sample data_bytes) (range num_points)).

Fixpoint channel_loop (channels : list Z) (spectrum : list (list Z))
  : M (list (list Z)) :=
  match channels with
  | [] => ret spectrum
  | ch_idx :: rest =>
      channel_data <- read_channel ch_idx ;;
      channel_loop rest (spectrum ++ [channel_data])
  end.

Definition read_spectrum : M (list pynum * list (list Z)) :=
  try_except
    (params <- read_scan_parameters ;;
     let '(start_wl, stop_wl, step_wl) := params in
     if py_le step_wl (PyInt 0) then ret ([], [])
     else
       let wavelengths :=
         map (fun i => py_add start_wl (py_mul (PyInt i) step_wl)) (range num_points) in
       spectrum <- channel_loop (range 4) [] ;;
       ret (wavelengths, spectrum))
    (ret ([], [])).

(** ** The console: [print]

    The methods report on the console. The operations above describe the
    reader while the console takes every message, and leave [print] out.
    Here the console is part of the state: the outcome of the successive
    calls of [print] is scripted like the faults of the port, a call raises
    where the script says so (the stream is closed, or cannot encode the
    message). What is printed is not kept. *)
Module Console.

(** How a call ends: as an [Outcome], with what is left of the script of
    the console. *)
Inductive Result (A : Type) : Type :=
| Returned (a : A) (w : World) (print_faults : list bool)
| Raised (w : World) (print_faults : list bool)
| Stopped.

Arguments Returned {A} a w print_faults.
Arguments Raised {A} w print_faults.
Arguments Stopped {A}.

Definition P (A : Type) : Type := World -> list bool -> Result A.

Definition pure {A : Type} (a : A) : P A := fun w c => Returned a w c.

Definition bind {A B : Type} (m : P A) (k : A -> P B) : P B :=
  fun w c =>
    match m w c with
    | Returned a w' c' => k a w' c'
    | Raised w' c' => Raised w' c'
    | Stopped => Stopped
    end.

(** [try: body / except Exception: handler]. *)
Definition try_except {A : Type} (body handler : P A) : P A :=
  fun w c =>
    match body w c with
    | Raised w' c' => handler w' c'
    | other => other
    end.

(** An operation that prints nothing. *)
Definition port {A : Type} (m : M A) : P A :=
  fun w c =>
    match m w with
    | Ret a w' => Returned a w' c
    | Raise w' => Raised w' c
    | OutOfFuel => Stopped
    end.

(** [print(...)]. *)
Definition print : P unit :=
  fun w c => if hd false c then Raised w (tl c) else Returned tt w (tl c).

Declare Scope console_scope.
Delimit Scope console_scope with console.
Notation "x <- m ;; k" := (bind m (fun x => k))
  (at level 61, m at next level, right associativity) : console_scope.
Notation "m ;; k" := (bind m (fun _ => k))
  (at level 61, right associativity) : console_scope.
Local Open Scope console_scope.

(** [GM8050Reader.send_command], the message of its handler included. *)
Definition send_command (address function data : string) : P bool :=
  try_except
    (cmd <- port (lift (build_command address function data)) ;;
     port (ser_write cmd) ;;
     pure true)
    (print ;;
     pure false).

(** The block [read_scan_parameters] repeats for the three registers, the
    messages of its two early returns included. *)
Definition scan_register (data : string) : P (option Z) :=
  sent_ok <- send_command "01" "03" data ;;
  if negb sent_ok then
    print ;;
    pure None
  else
    resp_status <- port (read_response 7 (seconds 1)) ;;
    buf <- port get_byte_array ;;
    if negb (is_success resp_status) || (len buf <? 7) then
      print ;;
      pure None
    else
      hi <- port (lift (getitem buf 3)) ;;
      lo <- port (lift (getitem buf 4)) ;;
      pure (Some (Z.lor (Z.shiftl hi 8) lo)).

(** [GM8050Reader.read_scan_parameters] with its messages: one before each
    early return, one before the tuple is returned, one in the handler. *)
Definition read_scan_parameters : P (pynum * pynum * pynum) :=
  try_except
    (start <- scan_register "10050001" ;;
     match start with
     | None => pure zero_tuple
     | Some start_reg =>
         stop <- scan_register "10060001" ;;
         match stop with
         | None => pure zero_tuple
         | Some stop_reg =>
             step <- scan_register "10070001" ;;
             match step with
             | None => pure zero_tuple
             | Some step_reg =>
                 let start_wl := py_add (PyInt 1520) (PyFloat (py_div_float start_reg 1000)) in
                 let stop_wl := py_add (PyInt 1520) (PyFloat (py_div_float stop_reg 1000)) in
                 let step_wl := PyFloat (py_div_float step_reg 1000) in
                 print ;;
                 pure (start_wl, stop_wl, step_wl)
             end
         end
     end)
    (print ;;
     pure zero_tuple).

(** The console takes every message. *)
Definition works (print_faults : list bool) : Prop :=
  forallb negb print_faults = true.

(** [p] is [m] with messages: while the console works it ends as [m] does,
    in the same world. *)
Definition refines {A : Type} (m : M A) (p : P A) : Prop :=
  forall w c,
    works c ->
    match m w with
    | Ret a w' => exists c', p w c = Returned a w' c' /\ works c'
    | Raise w' => exists c', p w c = Raised w' c' /\ works c'
    | OutOfFuel => p w c = Stopped
    end.

End Console.

(** ** Abbreviations used in the statements *)

(** The request for one holding register is answered in full: the frame goes
    out, the cycle ends in "success", and [raw] is the big-endian value of
    the bytes 3 and 4 of the response. *)
Definition register_cycle (data : string) (w : World) (raw : Z) (w' : World) : Prop :=
  exists w1,
    send_command "01" "03" data w = Ret true w1 /\
    read_response 7 (seconds 1) w1 = Ret Success w' /\
    raw = Z.lor (Z.shiftl (item (byte_array w') 3) 8) (item (byte_array w') 4).

(** The request for one holding register fails: the frame cannot be sent,
    or the cycle ends in another status than "success" or with fewer than
    seven bytes, or it raises. *)
Definition cycle_failed (data : string) (w w' : World) : Prop :=
  send_command "01" "03" data w = Ret false w' \/
  exists w1,
    send_command "01" "03" data w = Ret true w1 /\
    ((exists s, read_response 7 (seconds 1) w1 = Ret s w' /\
                (s <> Success \/ len (byte_array w') < 7)) \/
     read_response 7 (seconds 1) w1 = Raise w').

(** A frame of function 03H, "read holding registers". *)
Definition is_register_read (frame : list byte) : Prop :=
  nth_error frame 1 = Some x03.

(** The big-endian binary32 value that starts at [offset] in [buf]. *)
Definition float_at (buf : list byte) (offset : Z) : float :=
  float_of_bits32
    (Z.lor (Z.shiftl (item buf offset) 24)
       (Z.lor (Z.shiftl (item buf (offset + 1)) 16)
          (Z.lor (Z.shiftl (item buf (offset + 2)) 8) (item buf (offset + 3))))).

(** [read_scan_parameters] is on a failure path: the first request that
    fails, those before it having been answered in full, leaves [w']. *)
Definition scan_failed (w w' : World) : Prop :=
  cycle_failed "10050001" w w' \/
  (exists start_reg w1,
      register_cycle "10050001" w start_reg w1 /\
      cycle_failed "10060001" w1 w') \/
  (exists start_reg stop_reg w1 w2,
      register_cycle "10050001" w start_reg w1 /\
      register_cycle "10060001" w1 stop_reg w2 /\
      cycle_failed "10070001" w2 w').

(** The four channels are read in turn, each from the state in which the
    one before left the reader and the port, and no read raises. *)
Definition channels_read (w1 : World) (c0 c1 c2 c3 : list Z) (w5 : World) : Prop :=
  exists w2 w3 w4,
    read_channel 0 w1 = Ret c0 w2 /\
    read_channel 1 w2 = Ret c1 w3 /\
    read_channel 2 w3 = Ret c2 w4 /\
    read_channel 3 w4 = Ret c3 w5.

(** The channels are read in turn from [w1] and the read of one of them
    raises, leaving the state [w']; those before it have returned. *)
Definition channel_raises (w1 w' : World) : Prop :=
  read_channel 0 w1 = Raise w' \/
  exists c0 w2,
    read_channel 0 w1 = Ret c0 w2 /\
    (read_channel 1 w2 = Raise w' \/
     exists c1 w3,
       read_channel 1 w2 = Ret c1 w3 /\
       (read_channel 2 w3 = Raise w' \/
        exists c2 w4,
          read_channel 2 w3 = Ret c2 w4 /\
          read_channel 3 w4 = Raise w')).

(** ** Scripted devices for the examples *)

(** An exception response (function 03H with the high bit, code 2) that
    arrives in two pieces; two stale bytes wait in the port. *)
Definition exception_world : World :=
  mkWorld [] 0 1000 [] [x00; x00] [Bytes [x01; x83]; Bytes []; Bytes [x02; xc0; xf1]]
    [] [].

(** [exception_world] when the second turn of its read cycle starts: the
    first two bytes are in the buffer, the last arrival was at 3000. *)
Definition exception_second_turn : World :=
  mkWorld [x01; x83] 4000 1000 [] [] [Bytes [x02; xc0; xf1]] [] [].

(** Nothing answers; the clock moves by 50 ms a reading. *)
Definition silent_world : World := mkWorld [] 0 50000 [] [x07] [] [] [].


(** [silent_world] when the second turn of its read cycle starts. *)
Definition silent_second_turn : World := mkWorld [] 150000 50000 [] [] [] [] [].

(** A device whose bytes are found by the successive queries of the port. *)
Definition device (answers : list Arrival) : World :=
  mkWorld [] 0 50000 [] [] answers [] [].

(** A response that is there in full at the first query of a turn; the
    second query of that turn finds nothing more. *)
Definition answer (response : list byte) : list Arrival :=
  [Bytes response; Bytes []].

(** The response to a read of one holding register. *)
Definition register_response (hi lo crc_lo crc_hi : byte) : list Arrival :=
  answer [x01; x03; x02; hi; lo; crc_lo; crc_hi].

(** The registers 1005H to 1007H hold 7000, 48000 and 20. *)
Definition scan_answers : list Arrival :=
  register_response x1b x58 xb3 x4e ++
  register_response xbb x80 xcb x14 ++
  register_response x00 x14 xb8 x4b.

Definition scan_world : World := device scan_answers.

(** The three registers hold zero. *)
Definition zero_registers_world : World :=
  device (register_response x00 x00 xb8 x44 ++
          register_response x00 x00 xb8 x44 ++
          register_response x00 x00 xb8 x44).

(** The scan registers are read, then the four channels answer in turn:
    a full block of 2051 samples, an exception response, silence, and a
    full block again. *)
Definition spectrum_world : World :=
  device (scan_answers ++
          answer ([x01; x14; x10; x0a] ++ repeat x01 4102) ++
          answer [x01; x94; x02; xcf; x01] ++
          [Bytes []; Bytes []] ++
          answer ([x01; x14; x10; x0a] ++ repeat x02 4102)).

(** The scan registers are read, then the port fails. *)
Definition faulty_world : World := device (scan_answers ++ [Fault]).

(** The centre wavelength block: a four-byte header, then 1550.0, -1.0, 0.0
    and 1551.2 as binary32 values, then empty slots. *)
Definition center_world : World :=
  device (answer ([x01; x14; x04; x00] ++
                  [x44; xc1; xc0; x00] ++ [xbf; x80; x00; x00] ++
                  [x00; x00; x00; x00] ++ [x44; xc1; xe6; x66] ++
                  repeat x00 1008)).

(** * Properties *)

(** ** Bytes *)

Lemma int_of_byte_range (b : byte) : 0 <= int_of_byte b < 256.
Proof.
  unfold int_of_byte. pose proof (Byte.to_N_bounded b). lia.
Qed.

Lemma byte_of_int_of_byte (b : byte) : byte_of_int (int_of_byte b) = Some b.
Proof.
  unfold byte_of_int. pose proof (int_of_byte_range b) as R.
  replace ((0 <=? int_of_byte b) && (int_of_byte b <? 256)) with true
    by (symmetry; apply andb_true_iff; split; [apply Z.leb_le | apply Z.ltb_lt]; lia).
  unfold int_of_byte. rewrite N2Z.id. apply Byte.of_to_N.
Qed.

Lemma byte_of_int_some (z : Z) :
  0 <= z < 256 -> exists b, byte_of_int z = Some b /\ int_of_byte b = z.
Proof.
  intros R. unfold byte_of_int.
  replace ((0 <=? z) && (z <? 256)) with true
    by (symmetry; apply andb_true_iff; split; [apply Z.leb_le | apply Z.ltb_lt]; lia).
  destruct (Byte.of_N (Z.to_N z)) as [b|] eqn:E.
  - exists b. split; [reflexivity|].
    unfold int_of_byte. apply Byte.to_of_N in E. rewrite E. lia.
  - apply Byte.of_N_None_iff in E. lia.
Qed.

(** ** Checksum *)

Section CrcFacts.

Lemma lxor_u16 (a b : Z) :
  0 <= a < 65536 -> 0 <= b < 65536 -> 0 <= Z.lxor a b < 65536.
Proof.
  intros Ha Hb. split.
  - apply Z.lxor_nonneg. lia.
  - destruct (Z.eq_dec (Z.lxor a b) 0) as [E|NE]; [lia|].
    assert (0 < Z.lxor a b) by (pose proof (proj2 (Z.lxor_nonneg a b)); lia).
    change 65536 with (2 ^ 16). apply Z.log2_lt_pow2; [assumption|].
    pose proof (Z.log2_lxor a b (proj1 Ha) (proj1 Hb)) as L.
    assert (Z.log2 a < 16).
    { destruct (Z.eq_dec a 0) as [->|]; [reflexivity|].
      apply Z.log2_lt_pow2; lia. }
    assert (Z.log2 b < 16).
    { destruct (Z.eq_dec b 0) as [->|]; [reflexivity|].
      apply Z.log2_lt_pow2; lia. }
    lia.
Qed.

Lemma shiftr1_u16 (c : Z) : 0 <= c < 65536 -> 0 <= Z.shiftr c 1 < 65536.
Proof.
  intros R. rewrite Z.shiftr_div_pow2 by lia. change (2 ^ 1) with 2.
  split; [apply Z.div_pos; lia | apply Z.div_lt_upper_bound; lia].
Qed.

Lemma bit_step_u16 (c : Z) : 0 <= c < 65536 -> 0 <= Crc.bit_step c < 65536.
Proof.
  intros R. unfold Crc.bit_step.
  destruct (negb (Z.land c 1 =? 0)).
  - apply lxor_u16; [apply shiftr1_u16; assumption | lia].
  - apply shiftr1_u16; assumption.
Qed.

Lemma bit_loop_u16 (n : nat) :
  forall c, 0 <= c < 65536 -> 0 <= Crc.bit_loop n c < 65536.
Proof.
  induction n as [|n IH]; intros c R; simpl; [assumption|].
  apply IH, bit_step_u16, R.
Qed.

Lemma byte_step_u16 (c : Z) (b : byte) :
  0 <= c < 65536 -> 0 <= Crc.byte_step c b < 65536.
Proof.
  intros R. unfold Crc.byte_step. apply bit_loop_u16, lxor_u16; [assumption|].
  pose proof (int_of_byte_range b). lia.
Qed.

Lemma byte_loop_u16 (data : list byte) :
  forall c, 0 <= c < 65536 -> 0 <= Crc.byte_loop data c < 65536.
Proof.
  induction data as [|b rest IH]; intros c R; simpl; [assumption|].
  apply IH, byte_step_u16, R.
Qed.

Lemma calc_crc16_u16 (data : list byte) : 0 <= calc_crc16 data < 65536.
Proof. apply byte_loop_u16. lia. Qed.

Lemma byte_loop_app (xs ys : list byte) (c : Z) :
  Crc.byte_loop (xs ++ ys) c = Crc.byte_loop ys (Crc.byte_loop xs c).
Proof.
  revert c. induction xs as [|x xs IH]; intros c; simpl; [reflexivity|].
  apply IH.
Qed.

End CrcFacts.

Section CrcReferenceFacts.

Lemma low_bit_test (c : Z) : negb (Z.land c 1 =? 0) = Z.testbit c 0.
Proof.
  change 1 with (Z.ones 1) at 1. rewrite Z.land_ones by lia.
  change (2 ^ 1) with 2. rewrite Z.bit0_odd, Zmod_odd.
  destruct (Z.odd c); reflexivity.
Qed.

Lemma round_is_bit_step (c : Z) : CrcReference.round c = Crc.bit_step c.
Proof.
  unfold CrcReference.round, Crc.bit_step. rewrite low_bit_test. reflexivity.
Qed.

Lemma iter_round_is_bit_loop (n : nat) :
  forall c, Nat.iter n CrcReference.round c = Crc.bit_loop n c.
Proof.
  induction n as [|n IH]; intros c; [reflexivity|].
  rewrite Nat.iter_succ_r, round_is_bit_step. simpl. apply IH.
Qed.

Lemma byte_bits_high (b n : Z) : 0 <= b < 256 -> 8 <= n -> Z.testbit b n = false.
Proof.
  intros R Hn. rewrite <- (Z.mod_small b (2 ^ 8)) by (change (2 ^ 8) with 256; lia).
  apply Z.mod_pow2_bits_high. lia.
Qed.

Lemma xor_low_byte_is_lxor (acc b : Z) :
  0 <= b < 256 -> CrcReference.xor_low_byte acc b = Z.lxor acc b.
Proof.
  intros R. unfold CrcReference.xor_low_byte.
  apply Z.bits_inj'; intros n Hn.
  rewrite Z.lor_spec, !Z.lxor_spec, Z.land_spec.
  change 255 with (Z.ones 8). rewrite Z.testbit_ones_nonneg by lia.
  rewrite Z.shiftl_spec by lia.
  destruct (Z.ltb_spec n 8) as [Lt|Ge].
  - rewrite Z.testbit_neg_r by lia. rewrite andb_true_r. reflexivity.
  - rewrite Z.shiftr_spec by lia. replace (n - 8 + 8) with n by lia.
    rewrite (byte_bits_high b n R Ge).
    rewrite andb_false_r. simpl. rewrite orb_false_r, xorb_false_r. reflexivity.
Qed.

Lemma fold_feed_is_byte_loop (data : list byte) :
  forall acc, fold_left CrcReference.feed data acc = Crc.byte_loop data acc.
Proof.
  induction data as [|b rest IH]; intros acc; simpl; [reflexivity|].
  rewrite IH. f_equal. unfold CrcReference.feed, Crc.byte_step.
  rewrite iter_round_is_bit_loop, xor_low_byte_is_lxor by apply int_of_byte_range.
  reflexivity.
Qed.

End CrcReferenceFacts.

(** C3. For every byte sequence [calc_crc16] computes the reference
    checksum: the accumulator starts at 0xFFFF, each byte is XORed into its
    low byte and followed by eight rounds of shift right (and XOR with 0xA001
    when the low bit was set). The result is a function of the bytes alone
    and fits in 16 bits. *)
Theorem calc_crc16_is_reference (data : list byte) :
  calc_crc16 data = CrcReference.checksum data /\ 0 <= calc_crc16 data < 65536.
Proof.
  split; [|apply calc_crc16_u16].
  unfold calc_crc16, CrcReference.checksum. symmetry. apply fold_feed_is_byte_loop.
Qed.

Section CrcResidue.

Lemma bit_step_double (k : Z) : Crc.bit_step (2 * k) = k.
Proof.
  unfold Crc.bit_step. rewrite low_bit_test.
  rewrite Z.testbit_even_0.
  rewrite Z.shiftr_div_pow2 by lia. change (2 ^ 1) with 2.
  rewrite Z.mul_comm. apply Z.div_mul. lia.
Qed.

Lemma bit_loop_shifted (n : nat) :
  forall h, Crc.bit_loop n (2 ^ Z.of_nat n * h) = h.
Proof.
  induction n as [|n IH]; intros h.
  - simpl. destruct h; reflexivity.
  - cbn [Crc.bit_loop]. rewrite Nat2Z.inj_succ, Z.pow_succ_r by lia.
    rewrite <- Z.mul_assoc, bit_step_double. apply IH.
Qed.

Lemma clear_low_byte (c : Z) :
  Z.lxor c (Z.land c 255) = 2 ^ 8 * Z.shiftr c 8.
Proof.
  replace (2 ^ 8 * Z.shiftr c 8) with (Z.shiftl (Z.shiftr c 8) 8)
    by (rewrite Z.shiftl_mul_pow2 by lia; apply Z.mul_comm).
  apply Z.bits_inj'; intros n Hn.
  rewrite Z.lxor_spec, Z.land_spec.
  change 255 with (Z.ones 8). rewrite Z.testbit_ones_nonneg by lia.
  rewrite Z.shiftl_spec by lia.
  destruct (Z.ltb_spec n 8) as [Lt|Ge].
  - rewrite (Z.testbit_neg_r _ (n - 8)) by lia.
    rewrite andb_true_r. apply xorb_nilpotent.
  - rewrite Z.shiftr_spec by lia. replace (n - 8 + 8) with n by lia.
    rewrite andb_false_r. apply xorb_false_r.
Qed.

Lemma low_byte_is_mod (c : Z) : Z.land c 255 = c mod 256.
Proof. change 255 with (Z.ones 8). rewrite Z.land_ones by lia. reflexivity. Qed.

Lemma high_byte_is_div (c : Z) :
  0 <= c < 65536 -> Z.land (Z.shiftr c 8) 255 = c / 256.
Proof.
  intros R. rewrite low_byte_is_mod, Z.shiftr_div_pow2 by lia.
  change (2 ^ 8) with 256. apply Z.mod_small.
  split; [apply Z.div_pos; lia | apply Z.div_lt_upper_bound; lia].
Qed.

(** Feeding the low byte of the accumulator shifts the high byte down;
    feeding that byte next leaves nothing. *)
Lemma feed_own_bytes (c : Z) (lo hi : byte) :
  0 <= c < 65536 ->
  int_of_byte lo = c mod 256 ->
  int_of_byte hi = c / 256 ->
  Crc.byte_loop [lo; hi] c = 0.
Proof.
  intros R Hlo Hhi. simpl. unfold Crc.byte_step.
  rewrite Hlo, <- low_byte_is_mod, clear_low_byte.
  rewrite (bit_loop_shifted 8).
  rewrite Z.shiftr_div_pow2 by lia. change (2 ^ 8) with 256.
  rewrite Hhi, Z.lxor_nilpotent. reflexivity.
Qed.

(** The two bytes [build_command] appends. *)
Lemma crc_tail (c : Z) :
  0 <= c < 65536 ->
  exists lo hi,
  bytes_of_ints [Z.land c 0xFF; Z.land (Z.shiftr c 8) 0xFF] = Some [lo; hi] /\
  int_of_byte lo = c mod 256 /\ int_of_byte hi = c / 256.
Proof.
  intros R.
  destruct (byte_of_int_some (Z.land c 255)) as (lo & Elo & Vlo).
  { rewrite low_byte_is_mod. apply Z.mod_pos_bound. lia. }
  destruct (byte_of_int_some (Z.land (Z.shiftr c 8) 255)) as (hi & Ehi & Vhi).
  { rewrite high_byte_is_div by assumption.
    split; [apply Z.div_pos; lia | apply Z.div_lt_upper_bound; lia]. }
  exists lo, hi. cbn [bytes_of_ints]. rewrite Elo, Ehi.
  rewrite <- low_byte_is_mod, <- high_byte_is_div by assumption. auto.
Qed.

End CrcResidue.

(** C4. Checksum self-consistency: for every byte sequence, the checksum
    taken over the sequence followed by its own checksum, low byte first and
    high byte second, is zero. *)
Theorem calc_crc16_self_check (data : list byte) :
  exists lo hi,
    bytes_of_ints [Z.land (calc_crc16 data) 0xFF;
                   Z.land (Z.shiftr (calc_crc16 data) 8) 0xFF] = Some [lo; hi] /\
    calc_crc16 (data ++ [lo; hi]) = 0.
Proof.
  destruct (crc_tail (calc_crc16 data) (calc_crc16_u16 data)) as (lo & hi & E & Hlo & Hhi).
  exists lo, hi. split; [exact E|].
  unfold calc_crc16 at 1. rewrite byte_loop_app.
  apply feed_own_bytes; [apply (calc_crc16_u16 data) | assumption | assumption].
Qed.

(** ** Frame builder *)

Section FrameFacts.

Lemma fromhex_hex_of_byte (b : byte) (s : string) :
  fromhex (hex_of_byte b ++ s) =
  match fromhex s with Some bs => Some (b :: bs) | None => None end.
Proof. destruct b; reflexivity. Qed.

Lemma fromhex_hex_of_bytes (bs : list byte) : fromhex (hex_of_bytes bs) = Some bs.
Proof.
  induction bs as [|b rest IH]; [reflexivity|].
  cbn [hex_of_bytes]. rewrite fromhex_hex_of_byte, IH. reflexivity.
Qed.

(** Whatever text the caller passes, a frame is the decoded text followed
    by the two checksum bytes, low one first. *)
Lemma build_command_some (address function data : string) (body : list byte) :
  fromhex (address ++ function ++ data) = Some body ->
  exists crc_low crc_high,
  int_of_byte crc_low = calc_crc16 body mod 256 /\
  int_of_byte crc_high = calc_crc16 body / 256 /\
  build_command address function data = Some (body ++ [crc_low; crc_high]).
Proof.
  intros E. unfold build_command. rewrite E.
  destruct (crc_tail (calc_crc16 body) (calc_crc16_u16 body)) as (lo & hi & T & Hlo & Hhi).
  exists lo, hi. rewrite T. auto.
Qed.

Lemma build_command_none (address function data : string) :
  fromhex (address ++ function ++ data) = None ->
  build_command address function data = None.
Proof. intros E. unfold build_command. rewrite E. reflexivity. Qed.

Lemma firstn_length_app {A : Type} (l l' : list A) :
  firstn (List.length l) (l ++ l') = l.
Proof. induction l as [|x l IH]; simpl; [destruct l'|rewrite IH]; reflexivity. Qed.

End FrameFacts.

(** C5. For every address byte, function byte and payload, the frame of
    [build_command] is address, function, payload, then the low and the high
    byte of the checksum of address, function and payload; so the first two
    bytes of a frame and what lies between them and the last two give back
    the address, the function and the payload. *)
Theorem build_command_layout (address function : byte) (payload : list byte) :
  exists crc_low crc_high,
    int_of_byte crc_low = calc_crc16 (address :: function :: payload) mod 256 /\
    int_of_byte crc_high = calc_crc16 (address :: function :: payload) / 256 /\
    build_command (hex_of_byte address) (hex_of_byte function) (hex_of_bytes payload)
    = Some (address :: function :: payload ++ [crc_low; crc_high]) /\
    forall frame,
      build_command (hex_of_byte address) (hex_of_byte function) (hex_of_bytes payload)
      = Some frame ->
      nth_error frame 0 = Some address /\
      nth_error frame 1 = Some function /\
      firstn (List.length frame - 4) (skipn 2 frame) = payload.
Proof.
  destruct (build_command_some (hex_of_byte address) (hex_of_byte function)
              (hex_of_bytes payload) (address :: function :: payload))
    as (lo & hi & Hlo & Hhi & B).
  { rewrite !fromhex_hex_of_byte, fromhex_hex_of_bytes. reflexivity. }
  exists lo, hi. split; [exact Hlo|]. split; [exact Hhi|]. split; [exact B|].
  intros frame F. rewrite B in F. injection F as <-.
  split; [reflexivity|]. split; [reflexivity|].
  cbn [skipn app List.length]. rewrite length_app. cbn [List.length].
  replace (S (S (List.length payload + 2)) - 4)%nat with (List.length payload) by lia.
  apply firstn_length_app.
Qed.

(** ** Transport reader *)

(** Unfolds one turn of the polling loop in [H] and splits its branches. *)
Ltac unfold_turn H :=
  unfold poll_turn, no_data_test, bind, ret, time_time, ser_in_waiting, ser_read,
    get_byte_array, put_byte_array in H;
  repeat
    (cbn [byte_array now tick delays rx arrivals write_faults sent
          set_byte_array set_clock set_input set_output] in *;
     match type of H with
     | context [match arrivals ?w with _ => _ end] => destruct (arrivals w) as [|[?|] ?]
     | context [match ?l with nil => _ | cons _ _ => _ end] =>
         is_var l; destruct l as [|[?|] ?]
     | context [if ?c then _ else _] => destruct c eqn:?
     | context [match check_exception ?b with _ => _ end] =>
         destruct (check_exception b) eqn:?
     end);
  cbn [byte_array now tick delays rx arrivals write_faults sent
       set_byte_array set_clock set_input set_output] in *.

(** Reads a returned outcome apart. *)
Ltac invert_ret H := injection H as ? ?; subst.

Section ExceptionCheck.

Lemma check_exception_inv (buf : list byte) (s : Status) :
  check_exception buf = Some s ->
  5 <= len buf /\ Z.land (item buf 1) 0x80 <> 0 /\
  device_exception_code s = Some (item buf 2).
Proof.
  unfold check_exception.
  destruct (len buf >=? 3) eqn:L3; [|discriminate].
  destruct (Z.eqb_spec (Z.land (item buf 1) 128) 0) as [E|NE]; [discriminate|].
  cbn [negb].
  destruct (len buf >=? 5) eqn:L5; [|discriminate].
  apply Z.geb_le in L5.
  destruct (Z.eqb_spec (item buf 2) 1) as [E1|N1].
  { intros H. injection H as <-. rewrite E1. auto. }
  destruct (Z.eqb_spec (item buf 2) 2) as [E2|N2].
  { intros H. injection H as <-. rewrite E2. auto. }
  destruct (Z.eqb_spec (item buf 2) 3) as [E3|N3].
  { intros H. injection H as <-. rewrite E3. auto. }
  intros H. injection H as <-. auto.
Qed.

Lemma check_exception_none (buf : list byte) :
  check_exception buf = None ->
  ~ (5 <= len buf /\ Z.land (item buf 1) 0x80 <> 0).
Proof.
  unfold check_exception. intros H [L F].
  replace (len buf >=? 3) with true in H by (symmetry; apply Z.geb_le; lia).
  replace (len buf >=? 5) with true in H by (symmetry; apply Z.geb_le; lia).
  destruct (Z.eqb_spec (Z.land (item buf 1) 128) 0) as [E|NE]; [contradiction|].
  cbn [negb] in H.
  destruct (item buf 2 =? 1); [discriminate|].
  destruct (item buf 2 =? 2); [discriminate|].
  destruct (item buf 2 =? 3); discriminate.
Qed.

Lemma check_exception_some (buf : list byte) :
  5 <= len buf -> Z.land (item buf 1) 0x80 <> 0 ->
  exists s, check_exception buf = Some s /\
  device_exception_code s = Some (item buf 2).
Proof.
  intros L F. destruct (check_exception buf) as [s|] eqn:E.
  - exists s. split; [reflexivity|]. apply (check_exception_inv _ _ E).
  - exfalso. apply (check_exception_none _ E). auto.
Qed.

Lemma check_exception_nil : check_exception [] = None.
Proof. reflexivity. Qed.

End ExceptionCheck.

Section TurnFacts.

Variables expected_len timeout start_time : Z.

Lemma poll_turn_fuel (last : Z) (w : World) :
  poll_turn expected_len timeout start_time last w <> OutOfFuel.
Proof.
  intros H. unfold_turn H; discriminate H.
Qed.

(** Every turn reads the clock, and a turn that goes on found the time
    budget not used up. *)
Lemma poll_turn_clock (last : Z) (w w' : World) (r : Turn) :
  poll_turn expected_len timeout start_time last w = Ret r w' ->
  tick w' = tick w /\
  now w + Z.pos (tick w) <= now w' /\
  (forall last', r = Continue last' -> now w + Z.pos (tick w) - start_time < timeout).
Proof.
  intros H. unfold_turn H; try discriminate H; invert_ret H;
    cbn [tick now set_clock set_input set_byte_array];
    (split; [reflexivity|]); (split; [lia|]); intros last' E; try discriminate E;
    match goal with
    | C : (_ <? timeout) = true |- _ => apply Z.ltb_lt in C; lia
    end.
Qed.

(** A turn only ever appends to the buffer. *)
Lemma poll_turn_buffer (last : Z) (w w' : World) (r : Turn) :
  poll_turn expected_len timeout start_time last w = Ret r w' ->
  exists extra, byte_array w' = byte_array w ++ extra.
Proof.
  intros H. unfold_turn H; try discriminate H; invert_ret H;
    cbn [byte_array set_clock set_input set_byte_array];
    solve [exists []; symmetry; apply app_nil_r | eexists; reflexivity].
Qed.

(** What a turn returns, against the exception test on the buffer it
    leaves. *)
Lemma poll_turn_status (last : Z) (w w' : World) (r : Turn) :
  check_exception (byte_array w) = None ->
  poll_turn expected_len timeout start_time last w = Ret r w' ->
  match r with
  | Return s =>
      check_exception (byte_array w') = Some s \/
      (check_exception (byte_array w') = None /\ device_exception_code s = None /\
        (s = Success -> expected_len <= len (byte_array w')) /\
        (s = NoData -> len (byte_array w') < 5))
  | Continue _ => check_exception (byte_array w') = None
  end.
Proof.
  intros C H. unfold_turn H; try discriminate H; invert_ret H;
    cbn [byte_array set_clock set_input set_byte_array];
    try assumption;
    try (left; assumption);
    right; (split; [assumption|]); (split; [reflexivity|]);
    split; intros E; try discriminate E;
    repeat match goal with
    | A : (_ && _) = true |- _ => apply andb_true_iff in A; destruct A
    | A : (_ >=? _) = true |- _ => apply Z.geb_le in A
    | A : (_ <? _) = true |- _ => apply Z.ltb_lt in A
    end; unfold min_data_length in *; lia.
Qed.

End TurnFacts.

Section LoopFacts.

Variables expected_len timeout start_time : Z.

Lemma poll_loop_unfold (fuel : nat) (last : Z) (w : World) :
  poll_loop (S fuel) expected_len timeout start_time last w =
  match poll_turn expected_len timeout start_time last w with
  | Ret (Return s) w' => Ret s w'
  | Ret (Continue last') w' => poll_loop fuel expected_len timeout start_time last' w'
  | Raise w' => Raise w'
  | OutOfFuel => OutOfFuel
  end.
Proof.
  cbn [poll_loop]. unfold bind.
  destruct (poll_turn expected_len timeout start_time last w) as [[s|l] w'|w'|];
    reflexivity.
Qed.

(** The loop ends within the turns it is given, as long as they cover the
    time that is left. *)
Lemma poll_loop_fuel (fuel : nat) :
  forall (last : Z) (w : World),
  (1 <= fuel)%nat ->
  timeout - (now w - start_time) <= Z.of_nat fuel * Z.pos (tick w) ->
  poll_loop fuel expected_len timeout start_time last w <> OutOfFuel.
Proof.
  induction fuel as [|fuel IH]; intros last w F B; [lia|].
  rewrite poll_loop_unfold.
  destruct (poll_turn expected_len timeout start_time last w) as [[s|l] w'|w'|] eqn:T;
    try discriminate.
  - destruct (poll_turn_clock _ _ _ _ _ _ _ T) as (Tk & Nw & Go).
    specialize (Go l eq_refl).
    apply IH; rewrite ?Tk; nia.
  - exfalso. exact (poll_turn_fuel _ _ _ _ _ T).
Qed.

Lemma poll_loop_status (fuel : nat) :
  forall (last : Z) (w w' : World) (s : Status),
  check_exception (byte_array w) = None ->
  poll_loop fuel expected_len timeout start_time last w = Ret s w' ->
  check_exception (byte_array w') = Some s \/
  (check_exception (byte_array w') = None /\ device_exception_code s = None /\
    (s = Success -> expected_len <= len (byte_array w')) /\
    (s = NoData -> len (byte_array w') < 5)).
Proof.
  induction fuel as [|fuel IH]; intros last w w' s C H; [discriminate H|].
  rewrite poll_loop_unfold in H.
  destruct (poll_turn expected_len timeout start_time last w) as [[s0|l] w0|w0|] eqn:T;
    try discriminate H.
  - invert_ret H. exact (poll_turn_status _ _ _ _ _ _ _ C T).
  - apply (IH l w0); [|exact H]. exact (poll_turn_status _ _ _ _ _ _ _ C T).
Qed.

(** The buffer only grows while the loop runs. *)
Lemma poll_loop_buffer (fuel : nat) :
  forall (last : Z) (w w' : World) (s : Status),
  poll_loop fuel expected_len timeout start_time last w = Ret s w' ->
  exists extra, byte_array w' = byte_array w ++ extra.
Proof.
  induction fuel as [|fuel IH]; intros last w w' s H; [discriminate H|].
  rewrite poll_loop_unfold in H.
  destruct (poll_turn expected_len timeout start_time last w) as [[s0|l] w0|w0|] eqn:T;
    try discriminate H.
  - invert_ret H. exact (poll_turn_buffer _ _ _ _ _ _ _ T).
  - destruct (poll_turn_buffer _ _ _ _ _ _ _ T) as [e1 E1].
    destruct (IH _ _ _ _ H) as [e2 E2].
    exists (e1 ++ e2). rewrite E2, E1, app_assoc. reflexivity.
Qed.

(** A turn that starts with five bytes or more does not return "no data". *)
Lemma poll_turn_not_no_data (last : Z) (w w' : World) :
  5 <= len (byte_array w) ->
  poll_turn expected_len timeout start_time last w <> Ret (Return NoData) w'.
Proof.
  intros L H.
  unfold_turn H; try discriminate H;
    try (injection H as E _;
    match goal with
    | A : check_exception _ = Some _ |- _ =>
    apply check_exception_inv in A; destruct A as (_ & _ & A);
    rewrite E in A; discriminate A
    end);
    repeat match goal with
    | A : (_ && _) = true |- _ => apply andb_true_iff in A; destruct A
    | A : (_ <? _) = true |- _ => apply Z.ltb_lt in A
    end;
    unfold min_data_length, len in *; rewrite ?length_app in *; lia.
Qed.

Lemma poll_loop_not_no_data (fuel : nat) :
  forall (last : Z) (w w' : World),
  5 <= len (byte_array w) ->
  poll_loop fuel expected_len timeout start_time last w <> Ret NoData w'.
Proof.
  induction fuel as [|fuel IH]; intros last w w' L H; [discriminate H|].
  rewrite poll_loop_unfold in H.
  destruct (poll_turn expected_len timeout start_time last w) as [[s0|l] w0|w0|] eqn:T;
    try discriminate H.
  - injection H as -> ->. exact (poll_turn_not_no_data _ _ _ L T).
  - apply (IH l w0 w'); [|exact H].
    destruct (poll_turn_buffer _ _ _ _ _ _ _ T) as [e E].
    unfold len in *. rewrite E, length_app. lia.
Qed.

End LoopFacts.

Section ReadResponseFacts.

Variables expected_len timeout : Z.

Lemma read_response_unfold (w : World) :
  read_response expected_len timeout w =
  poll_loop (poll_budget timeout (cycle_start w)) expected_len timeout
  (now (cycle_start w)) (now (cycle_start w)) (cycle_start w).
Proof. reflexivity. Qed.

(** A read cycle ends: with a status or with an exception of the port. *)
Lemma read_response_total (w : World) :
  read_response expected_len timeout w <> OutOfFuel.
Proof.
  rewrite read_response_unfold. apply poll_loop_fuel.
  - unfold poll_budget. lia.
  - unfold poll_budget. set (T := Z.pos (tick (cycle_start w))).
    assert (0 < T) by (unfold T; lia).
    rewrite Nat2Z.inj_succ.
    destruct (Z.le_gt_cases 0 timeout) as [P|N].
    + rewrite Z2Nat.id by (apply Z.div_pos; lia).
      pose proof (Z.mul_succ_div_gt timeout T ltac:(lia)). nia.
    + assert (0 <= Z.of_nat (Z.to_nat (timeout / T))) by lia. nia.
Qed.

Lemma read_response_status (w w' : World) (s : Status) :
  read_response expected_len timeout w = Ret s w' ->
  check_exception (byte_array w') = Some s \/
  (check_exception (byte_array w') = None /\ device_exception_code s = None /\
    (s = Success -> expected_len <= len (byte_array w')) /\
    (s = NoData -> len (byte_array w') < 5)).
Proof.
  rewrite read_response_unfold. apply poll_loop_status. reflexivity.
Qed.

Lemma read_response_success (w w' : World) :
  read_response expected_len timeout w = Ret Success w' ->
  expected_len <= len (byte_array w').
Proof.
  intros H. destruct (read_response_status _ _ _ H) as [E|(_ & _ & S & _)].
  - apply check_exception_inv in E. destruct E as (_ & _ & E). discriminate E.
  - apply S. reflexivity.
Qed.

End ReadResponseFacts.

Section SilentPort.

Variables expected_len timeout start_time : Z.

(** From a silent port and a buffer of fewer than five bytes the loop goes
    on to "no data", as long as the time budget outlasts the 0.1 s. *)
Lemma poll_loop_silent (fuel : nat) :
  forall (last : Z) (w : World),
  silent w ->
  len (byte_array w) < 5 ->
  now w + Z.pos (tick w) < start_time + timeout ->
  last + tenth_of_a_second + Z.pos (tick w) < start_time + timeout ->
  poll_loop fuel expected_len timeout start_time last w = OutOfFuel \/
  exists w', poll_loop fuel expected_len timeout start_time last w = Ret NoData w'.
Proof.
  induction fuel as [|fuel IH]; intros last w (Ha & Hr & Hd) L B1 B2;
    [left; reflexivity|].
  rewrite poll_loop_unfold.
  unfold poll_turn, no_data_test, bind, ret, time_time, ser_in_waiting, get_byte_array.
  rewrite Hd. cbn [hd tl Z.of_N].
  replace (now w + Z.pos (tick w) + 0 - start_time <? timeout) with true
    by (symmetry; apply Z.ltb_lt; lia).
  cbn [byte_array now tick delays rx arrivals set_clock].
  rewrite Ha, Hr. cbn [List.length Z.of_nat Z.eqb negb].
  cbn [byte_array now tick delays rx arrivals set_clock hd tl Z.of_N].
  replace (len (byte_array w) <? min_data_length) with true
    by (symmetry; apply Z.ltb_lt; unfold min_data_length; lia).
  rewrite andb_true_r.
  destruct (Z.gtb_spec (now w + Z.pos (tick w) + 0 + Z.pos (tick w) + 0 - last)
    tenth_of_a_second) as [G|G].
  - right. eexists. reflexivity.
  - apply IH; cbn [byte_array now tick delays rx arrivals set_clock];
      [repeat split; assumption | assumption | lia | lia].
Qed.

End SilentPort.

Lemma read_response_silent (expected_len timeout : Z) (w : World) :
  arrivals w = [] ->
  delays w = [] ->
  tenth_of_a_second + Z.pos (tick w) < timeout ->
  exists w', read_response expected_len timeout w = Ret NoData w'.
Proof.
  intros Ha Hd B.
  pose proof (read_response_total expected_len timeout w) as T.
  rewrite read_response_unfold in *.
  destruct (poll_loop_silent expected_len timeout (now (cycle_start w))
              (poll_budget timeout (cycle_start w)) (now (cycle_start w))
              (cycle_start w)) as [F|E].
  - unfold cycle_start, silent.
    cbn [byte_array now tick delays rx arrivals set_clock set_input set_byte_array].
    rewrite Ha, Hd. auto.
  - reflexivity.
  - unfold cycle_start.
    cbn [byte_array now tick delays rx arrivals set_clock set_input set_byte_array].
    unfold tenth_of_a_second in B. lia.
  - unfold cycle_start.
    cbn [byte_array now tick delays rx arrivals set_clock set_input set_byte_array].
    lia.
  - contradiction.
  - exact E.
Qed.

(** The states a turn goes through do not touch the buffer. *)
Lemma time_time_buffer (w w' : World) (t : Z) :
  time_time w = Ret t w' -> byte_array w' = byte_array w.
Proof. unfold time_time. intros H. injection H as _ <-. reflexivity. Qed.

Lemma ser_in_waiting_buffer (w w' : World) (n : Z) :
  ser_in_waiting w = Ret n w' -> byte_array w' = byte_array w.
Proof.
  unfold ser_in_waiting. destruct (arrivals w) as [|[c|] rest]; intros H;
    [| |discriminate H]; injection H as _ <-; reflexivity.
Qed.

Lemma ser_read_buffer (w w' : World) (n : Z) (chunk : list byte) :
  ser_read n w = Ret chunk w' -> byte_array w' = byte_array w.
Proof. unfold ser_read. intros H. injection H as _ <-. reflexivity. Qed.

(** C1. In every read cycle, once the accumulated buffer has five bytes or
    more and the high bit of its second byte is set, the cycle returns the
    device exception whose code is the third byte: in the very turn of the
    loop that appended the bytes, for any expected length (first part), so
    that a cycle never returns anything else with such a buffer, "success"
    included (second part). *)
Theorem read_response_device_exception :
  (forall fuel expected_len timeout start_time last_data_time
          w t w1 n w2 size w3 chunk w4,
      time_time w = Ret t w1 ->
      t - start_time < timeout ->
      ser_in_waiting w1 = Ret n w2 ->
      n <> 0 ->
      ser_in_waiting w2 = Ret size w3 ->
      ser_read size w3 = Ret chunk w4 ->
      5 <= len (byte_array w ++ chunk) ->
      Z.land (item (byte_array w ++ chunk) 1) 0x80 <> 0 ->
      exists s w',
        poll_loop (S fuel) expected_len timeout start_time last_data_time w = Ret s w' /\
        device_exception_code s = Some (item (byte_array w ++ chunk) 2) /\
        byte_array w' = byte_array w ++ chunk) /\
  (forall expected_len timeout w s w',
      read_response expected_len timeout w = Ret s w' ->
      5 <= len (byte_array w') ->
      Z.land (item (byte_array w') 1) 0x80 <> 0 ->
      device_exception_code s = Some (item (byte_array w') 2)).
Proof.
  split.
  - intros fuel expected_len timeout start_time last w t w1 n w2 size w3 chunk w4
      Ht Hlt Hn Hn0 Hs Hr L F.
    destruct (check_exception_some _ L F) as (s & C & D).
    rewrite poll_loop_unfold. unfold poll_turn, bind.
    rewrite Ht. apply Z.ltb_lt in Hlt. rewrite Hlt. rewrite Hn.
    apply Z.eqb_neq in Hn0. rewrite Hn0. cbn [negb]. rewrite Hs, Hr.
    assert (B : byte_array w4 = byte_array w).
    { rewrite (ser_read_buffer _ _ _ _ Hr), (ser_in_waiting_buffer _ _ _ Hs),
        (ser_in_waiting_buffer _ _ _ Hn). exact (time_time_buffer _ _ _ Ht). }
    unfold get_byte_array, put_byte_array, time_time, ret.
    cbn [byte_array set_byte_array set_clock]. rewrite B, C.
    eexists. eexists. split; [reflexivity|]. split; [exact D|reflexivity].
  - intros expected_len timeout w s w' H L F.
    destruct (read_response_status _ _ _ _ _ H) as [C|(C & _)].
    + apply (check_exception_inv _ _ C).
    + exfalso. apply (check_exception_none _ C). auto.
Qed.

Lemma read_response_device_exception_witness :
  (exists s w',
      poll_loop 1 3 (seconds 1) 1000 3000 exception_second_turn = Ret s w' /\
      device_exception_code s = Some 2) /\
  (exists s w',
      read_response 3 (seconds 1) exception_world = Ret s w' /\
      5 <= len (byte_array w') /\
      Z.land (item (byte_array w') 1) 0x80 <> 0 /\
      device_exception_code s = Some (item (byte_array w') 2) /\
      s = IllegalDataAddress).
Proof.
  split.
  - destruct (proj1 read_response_device_exception 0%nat 3 (seconds 1) 1000 3000
                exception_second_turn _ _ _ _ _ _ [x02; xc0; xf1] _
                eq_refl eq_refl eq_refl ltac:(discriminate) eq_refl eq_refl
                ltac:(discriminate) ltac:(discriminate))
      as (s & w' & E & C & _).
    exists s, w'. split; [exact E|exact C].
  - eexists. eexists.
    split; [vm_compute; reflexivity|].
    split; [vm_compute; discriminate|].
    split; [vm_compute; discriminate|].
    split; [|reflexivity].
    apply (proj2 read_response_device_exception 3 (seconds 1) exception_world).
    + vm_compute. reflexivity.
    + vm_compute. discriminate.
    + vm_compute. discriminate.
Defined.

(** C2. The quick no-data test. At the end of a turn of the loop, whether
    nothing was waiting (first part) or bytes were appended without ending
    the cycle (second part), more than 0.1 s since the last arrival together
    with a buffer of fewer than five bytes makes the cycle return "no data".
    From a buffer of five bytes or more on, the loop never returns "no
    data" (third part), so a cycle that returns it has fewer than five
    bytes (fourth part). A port that stays silent makes the cycle return
    "no data" whenever the timeout exceeds the 0.1 s by more than a tick of
    the clock (fifth part). *)
Theorem read_response_no_data :
  (forall fuel expected_len timeout start_time last_data_time w t w1 w2 t' w3,
      time_time w = Ret t w1 ->
      t - start_time < timeout ->
      ser_in_waiting w1 = Ret 0 w2 ->
      time_time w2 = Ret t' w3 ->
      t' - last_data_time > tenth_of_a_second ->
      len (byte_array w) < 5 ->
      poll_loop (S fuel) expected_len timeout start_time last_data_time w
      = Ret NoData w3) /\
  (forall fuel expected_len timeout start_time last_data_time
          w t w1 n w2 size w3 chunk w4 last' w5 t' w6,
      time_time w = Ret t w1 ->
      t - start_time < timeout ->
      ser_in_waiting w1 = Ret n w2 ->
      n <> 0 ->
      ser_in_waiting w2 = Ret size w3 ->
      ser_read size w3 = Ret chunk w4 ->
      len (byte_array w ++ chunk) < expected_len ->
      time_time (set_byte_array w4 (byte_array w ++ chunk)) = Ret last' w5 ->
      time_time w5 = Ret t' w6 ->
      t' - last' > tenth_of_a_second ->
      len (byte_array w ++ chunk) < 5 ->
      poll_loop (S fuel) expected_len timeout start_time last_data_time w
      = Ret NoData w6) /\
  (forall fuel expected_len timeout start_time last_data_time w w',
      5 <= len (byte_array w) ->
      poll_loop fuel expected_len timeout start_time last_data_time w
      <> Ret NoData w') /\
  (forall expected_len timeout w w',
      read_response expected_len timeout w = Ret NoData w' ->
      len (byte_array w') < 5) /\
  (forall expected_len timeout w,
      arrivals w = [] ->
      delays w = [] ->
      tenth_of_a_second + Z.pos (tick w) < timeout ->
      exists w', read_response expected_len timeout w = Ret NoData w').
Proof.
  split; [|split; [|split; [|split]]].
  - intros fuel expected_len timeout start_time last w t w1 w2 t' w3
      Ht Hlt Hn Ht' Hgt L.
    rewrite poll_loop_unfold. unfold poll_turn, bind.
    rewrite Ht. apply Z.ltb_lt in Hlt. rewrite Hlt. rewrite Hn.
    cbn [Z.eqb negb]. unfold no_data_test, bind. rewrite Ht'.
    assert (B : byte_array w3 = byte_array w).
    { rewrite (time_time_buffer _ _ _ Ht'), (ser_in_waiting_buffer _ _ _ Hn).
      exact (time_time_buffer _ _ _ Ht). }
    unfold get_byte_array, ret. rewrite B.
    replace (t' - last >? tenth_of_a_second) with true
      by (symmetry; apply Z.gtb_lt; lia).
    replace (len (byte_array w) <? min_data_length) with true
      by (symmetry; apply Z.ltb_lt; unfold min_data_length; lia).
    reflexivity.
  - intros fuel expected_len timeout start_time last w t w1 n w2 size w3 chunk w4
      last' w5 t' w6 Ht Hlt Hn Hn0 Hs Hr Hshort Hl Ht' Hgt L.
    rewrite poll_loop_unfold. unfold poll_turn, bind.
    rewrite Ht. apply Z.ltb_lt in Hlt. rewrite Hlt. rewrite Hn.
    apply Z.eqb_neq in Hn0. rewrite Hn0. cbn [negb]. rewrite Hs, Hr.
    assert (B : byte_array w4 = byte_array w).
    { rewrite (ser_read_buffer _ _ _ _ Hr), (ser_in_waiting_buffer _ _ _ Hs),
        (ser_in_waiting_buffer _ _ _ Hn). exact (time_time_buffer _ _ _ Ht). }
    unfold get_byte_array at 1, put_byte_array. rewrite B, Hl.
    assert (B5 : byte_array w5 = byte_array w ++ chunk).
    { rewrite (time_time_buffer _ _ _ Hl). reflexivity. }
    unfold get_byte_array at 1. rewrite B5.
    destruct (check_exception (byte_array w ++ chunk)) as [s|] eqn:C.
    { apply check_exception_inv in C. lia. }
    replace (len (byte_array w ++ chunk) >=? expected_len) with false
      by (symmetry; rewrite Z.geb_leb; apply Z.leb_gt; lia).
    unfold no_data_test, bind. rewrite Ht'.
    assert (B6 : byte_array w6 = byte_array w ++ chunk).
    { rewrite (time_time_buffer _ _ _ Ht'). exact B5. }
    unfold get_byte_array, ret. rewrite B6.
    replace (t' - last' >? tenth_of_a_second) with true
      by (symmetry; apply Z.gtb_lt; lia).
    replace (len (byte_array w ++ chunk) <? min_data_length) with true
      by (symmetry; apply Z.ltb_lt; unfold min_data_length; lia).
    reflexivity.
  - intros fuel expected_len timeout start_time last w w' L.
    apply poll_loop_not_no_data, L.
  - intros expected_len timeout w w' H.
    destruct (read_response_status _ _ _ _ _ H) as [C|(_ & _ & _ & S)].
    + apply check_exception_inv in C. destruct C as (_ & _ & C). discriminate C.
    + apply S. reflexivity.
  - exact read_response_silent.
Qed.

Lemma read_response_no_data_witness :
  (exists w3,
      poll_loop 1 7 (seconds 1) 50000 50000 silent_second_turn = Ret NoData w3) /\
  (exists w', read_response 7 (seconds 1) silent_world = Ret NoData w').
Proof.
  split.
  - eexists.
    eapply (proj1 read_response_no_data 0%nat 7 (seconds 1) 50000 50000
              silent_second_turn).
    + reflexivity.
    + vm_compute. reflexivity.
    + reflexivity.
    + reflexivity.
    + vm_compute. reflexivity.
    + vm_compute. reflexivity.
  - apply (proj2 (proj2 (proj2 (proj2 read_response_no_data))) 7 (seconds 1)
             silent_world).
    + reflexivity.
    + reflexivity.
    + vm_compute. reflexivity.
Defined.

(** ** Scan parameters *)

Section ScanFacts.

(** [send_command] swallows what goes wrong and reports it. *)
Lemma send_command_returns (address function data : string) (w : World) :
  exists sent_ok w', send_command address function data w = Ret sent_ok w'.
Proof.
  unfold send_command, try_except, bind, lift, ser_write, ret, raise.
  destruct (build_command address function data) as [cmd|]; [|eauto].
  destruct (hd false (write_faults w)); eauto.
Qed.

Lemma register_cycle_length (data : string) (w w' : World) (raw : Z) :
  register_cycle data w raw w' -> 7 <= len (byte_array w').
Proof.
  intros (w1 & _ & R & _). exact (read_response_success _ _ _ _ R).
Qed.

Lemma getitem_item (buf : list byte) (i : Z) :
  0 <= i < len buf -> getitem buf i = Some (item buf i).
Proof.
  intros R. unfold getitem.
  replace ((0 <=? i) && (i <? len buf)) with true; [reflexivity|].
  symmetry. apply andb_true_iff. split; [apply Z.leb_le | apply Z.ltb_lt]; lia.
Qed.

Lemma scan_register_ok (data : string) (w w' : World) (raw : Z) :
  register_cycle data w raw w' -> scan_register data w = Ret (Some raw) w'.
Proof.
  intros C. pose proof (register_cycle_length _ _ _ _ C) as L.
  destruct C as (w1 & S & R & ->).
  unfold scan_register, bind. rewrite S. cbn [negb]. rewrite R.
  unfold get_byte_array. cbn [is_success negb orb].
  replace (len (byte_array w') <? 7) with false by (symmetry; apply Z.ltb_ge; lia).
  unfold lift. rewrite !getitem_item by lia. reflexivity.
Qed.

Lemma scan_register_failed (data : string) (w w' : World) :
  cycle_failed data w w' ->
  scan_register data w = Ret None w' \/ scan_register data w = Raise w'.
Proof.
  intros [S|(w1 & S & [(s & R & F)|R])]; unfold scan_register, bind; rewrite S;
    cbn [negb]; [left; reflexivity | |right; rewrite R; reflexivity].
  left. rewrite R. unfold get_byte_array.
  destruct F as [F|F].
  - destruct s; try reflexivity. contradiction.
  - replace (len (byte_array w') <? 7) with true by (symmetry; apply Z.ltb_lt; lia).
    rewrite orb_true_r. reflexivity.
Qed.

(** A request either is answered in full or fails; it always ends. *)
Lemma register_cycle_or_failed (data : string) (w : World) :
  (exists raw w', register_cycle data w raw w') \/ (exists w', cycle_failed data w w').
Proof.
  destruct (send_command_returns "01" "03" data w) as ([|] & w1 & S).
  - destruct (read_response 7 (seconds 1) w1) as [s w'|w'|] eqn:R.
    + destruct s;
        try (right; exists w'; right; exists w1; split; [exact S|];
        left; eexists; split; [exact R|]; left; discriminate).
      left. eexists. exists w'. exists w1. split; [exact S|]. split; [exact R|reflexivity].
    + right. exists w'. right. exists w1. split; [exact S|]. right. exact R.
    + exfalso. exact (read_response_total _ _ _ R).
  - right. exists w1. left. exact S.
Qed.

(** The tuple computed from three register values. *)
Lemma read_scan_parameters_ok (w w1 w2 w3 : World) (start_reg stop_reg step_reg : Z) :
  register_cycle "10050001" w start_reg w1 ->
  register_cycle "10060001" w1 stop_reg w2 ->
  register_cycle "10070001" w2 step_reg w3 ->
  read_scan_parameters w =
  Ret (PyFloat (1520 + float_of_int start_reg / 1000)%float,
    PyFloat (1520 + float_of_int stop_reg / 1000)%float,
    PyFloat (float_of_int step_reg / 1000)%float) w3.
Proof.
  intros C1 C2 C3. unfold read_scan_parameters, try_except, bind.
  rewrite (scan_register_ok _ _ _ _ C1), (scan_register_ok _ _ _ _ C2),
    (scan_register_ok _ _ _ _ C3).
  reflexivity.
Qed.

Lemma read_scan_parameters_failed_1 (w w' : World) :
  cycle_failed "10050001" w w' -> read_scan_parameters w = Ret zero_tuple w'.
Proof.
  intros F. unfold read_scan_parameters, try_except, bind.
  destruct (scan_register_failed _ _ _ F) as [-> | ->]; reflexivity.
Qed.

Lemma read_scan_parameters_failed_2 (w w1 w' : World) (start_reg : Z) :
  register_cycle "10050001" w start_reg w1 ->
  cycle_failed "10060001" w1 w' ->
  read_scan_parameters w = Ret zero_tuple w'.
Proof.
  intros C1 F. unfold read_scan_parameters, try_except, bind.
  rewrite (scan_register_ok _ _ _ _ C1).
  destruct (scan_register_failed _ _ _ F) as [-> | ->]; reflexivity.
Qed.

Lemma read_scan_parameters_failed_3 (w w1 w2 w' : World) (start_reg stop_reg : Z) :
  register_cycle "10050001" w start_reg w1 ->
  register_cycle "10060001" w1 stop_reg w2 ->
  cycle_failed "10070001" w2 w' ->
  read_scan_parameters w = Ret zero_tuple w'.
Proof.
  intros C1 C2 F. unfold read_scan_parameters, try_except, bind.
  rewrite (scan_register_ok _ _ _ _ C1), (scan_register_ok _ _ _ _ C2).
  destruct (scan_register_failed _ _ _ F) as [-> | ->]; reflexivity.
Qed.

(** [read_scan_parameters] always returns: the zero tuple, or the tuple of
    three registers read in full. *)
Lemma read_scan_parameters_cases (w : World) :
  (exists w', read_scan_parameters w = Ret zero_tuple w') \/
  (exists w1 w2 w3 start_reg stop_reg step_reg,
    register_cycle "10050001" w start_reg w1 /\
    register_cycle "10060001" w1 stop_reg w2 /\
    register_cycle "10070001" w2 step_reg w3).
Proof.
  destruct (register_cycle_or_failed "10050001" w) as [(a & w1 & C1)|(w' & F)];
    [|left; exists w'; apply read_scan_parameters_failed_1, F].
  destruct (register_cycle_or_failed "10060001" w1) as [(b & w2 & C2)|(w' & F)];
    [|left; exists w'; apply (read_scan_parameters_failed_2 _ _ _ _ C1 F)].
  destruct (register_cycle_or_failed "10070001" w2) as [(c & w3 & C3)|(w' & F)];
    [|left; exists w'; apply (read_scan_parameters_failed_3 _ _ _ _ _ _ C1 C2 F)].
  right. exists w1, w2, w3, a, b, c. auto.
Qed.

End ScanFacts.

Section RegisterValues.

Lemma lor_u16 (a b : Z) :
  0 <= a < 65536 -> 0 <= b < 65536 -> 0 <= Z.lor a b < 65536.
Proof.
  intros Ha Hb. split.
  - apply Z.lor_nonneg. lia.
  - destruct (Z.eq_dec (Z.lor a b) 0) as [E|NE]; [lia|].
    assert (0 < Z.lor a b) by (pose proof (proj2 (Z.lor_nonneg a b)); lia).
    change 65536 with (2 ^ 16). apply Z.log2_lt_pow2; [assumption|].
    rewrite (Z.log2_lor a b) by lia.
    assert (Z.log2 a < 16).
    { destruct (Z.eq_dec a 0) as [->|]; [reflexivity|].
      apply Z.log2_lt_pow2; lia. }
    assert (Z.log2 b < 16).
    { destruct (Z.eq_dec b 0) as [->|]; [reflexivity|].
      apply Z.log2_lt_pow2; lia. }
    lia.
Qed.

Lemma item_range (buf : list byte) (i : Z) : 0 <= item buf i < 256.
Proof. apply int_of_byte_range. Qed.

(** Two bytes, the high one first, make a 16-bit value. *)
Lemma big_endian_u16 (hi lo : Z) :
  0 <= hi < 256 -> 0 <= lo < 256 -> 0 <= Z.lor (Z.shiftl hi 8) lo < 65536.
Proof.
  intros Hh Hl. apply lor_u16; [|lia].
  rewrite Z.shiftl_mul_pow2 by lia. change (2 ^ 8) with 256. lia.
Qed.

Lemma register_cycle_u16 (data : string) (w w' : World) (raw : Z) :
  register_cycle data w raw w' -> 0 <= raw < 65536.
Proof.
  intros (w1 & _ & _ & ->). apply big_endian_u16; apply item_range.
Qed.

End RegisterValues.

#[local] Set Warnings "-inexact-float".

(** C6. When the three registers are read in full, [read_scan_parameters]
    returns 1520 + raw/1000 for the start and the stop register and
    raw/1000 for the step register, each raw value being a 16-bit one; the
    registers 7000, 48000 and 20 give 1527.0, 1568.0 and 0.02. *)
Theorem read_scan_parameters_conversion
  (w w1 w2 w3 : World) (start_reg stop_reg step_reg : Z) :
  register_cycle "10050001" w start_reg w1 ->
  register_cycle "10060001" w1 stop_reg w2 ->
  register_cycle "10070001" w2 step_reg w3 ->
  read_scan_parameters w =
  Ret (PyFloat (1520 + float_of_int start_reg / 1000)%float,
       PyFloat (1520 + float_of_int stop_reg / 1000)%float,
       PyFloat (float_of_int step_reg / 1000)%float) w3 /\
  (0 <= start_reg < 65536 /\ 0 <= stop_reg < 65536 /\ 0 <= step_reg < 65536) /\
  ((start_reg, stop_reg, step_reg) = (7000, 48000, 20) ->
   read_scan_parameters w = Ret (PyFloat 1527, PyFloat 1568, PyFloat 0.02) w3).
Proof.
  intros C1 C2 C3.
  pose proof (read_scan_parameters_ok _ _ _ _ _ _ _ C1 C2 C3) as E.
  split; [exact E|]. split.
  - repeat split; eapply register_cycle_u16; eassumption.
  - intros V. injection V as -> -> ->. rewrite E. reflexivity.
Qed.

Lemma read_scan_parameters_conversion_witness :
  exists w3,
    read_scan_parameters scan_world = Ret (PyFloat 1527, PyFloat 1568, PyFloat 0.02) w3.
Proof.
  eexists.
  refine (proj2 (proj2 (read_scan_parameters_conversion scan_world _ _ _ 7000 48000 20
                          _ _ _)) eq_refl).
  - eexists. split; [vm_compute; reflexivity|]. split; vm_compute; reflexivity.
  - eexists. split; [vm_compute; reflexivity|]. split; vm_compute; reflexivity.
  - eexists. split; [vm_compute; reflexivity|]. split; vm_compute; reflexivity.
Defined.

(** ** The console *)

Section ConsoleFacts.

Lemma works_print (c : list bool) :
  Console.works c -> hd false c = false /\ Console.works (tl c).
Proof.
  unfold Console.works. destruct c as [|[|] c]; simpl; intros H;
    [split; reflexivity|discriminate H|split; [reflexivity|exact H]].
Qed.

Lemma refines_port {A : Type} (m : M A) : Console.refines m (Console.port m).
Proof.
  intros w c W. unfold Console.port. destruct (m w); eauto.
Qed.

Lemma refines_pure {A : Type} (a : A) : Console.refines (ret a) (Console.pure a).
Proof.
  intros w c W. unfold ret, Console.pure. eauto.
Qed.

Lemma refines_bind {A B : Type} (m : M A) (p : Console.P A)
  (k : A -> M B) (q : A -> Console.P B) :
  Console.refines m p -> (forall a, Console.refines (k a) (q a)) ->
  Console.refines (bind m k) (Console.bind p q).
Proof.
  intros Hm Hk w c W. specialize (Hm w c W). unfold bind, Console.bind.
  destruct (m w) as [a w1|w1|].
  - destruct Hm as (c1 & -> & W1). exact (Hk a w1 c1 W1).
  - destruct Hm as (c1 & -> & W1). eauto.
  - rewrite Hm. reflexivity.
Qed.

Lemma refines_try_except {A : Type} (m h : M A) (p q : Console.P A) :
  Console.refines m p -> Console.refines h q ->
  Console.refines (try_except m h) (Console.try_except p q).
Proof.
  intros Hm Hh w c W. specialize (Hm w c W). unfold try_except, Console.try_except.
  destruct (m w) as [a w1|w1|].
  - destruct Hm as (c1 & -> & W1). eauto.
  - destruct Hm as (c1 & -> & W1). exact (Hh w1 c1 W1).
  - rewrite Hm. reflexivity.
Qed.

(** A message changes nothing while the console works. *)
Lemma refines_print {A : Type} (m : M A) (p : Console.P A) :
  Console.refines m p ->
  Console.refines m (Console.bind Console.print (fun _ => p)).
Proof.
  intros Hm w c W. destruct (works_print c W) as [H T].
  unfold Console.bind, Console.print. rewrite H. exact (Hm w (tl c) T).
Qed.

Lemma refines_send_command (address function data : string) :
  Console.refines (send_command address function data)
    (Console.send_command address function data).
Proof.
  unfold send_command, Console.send_command.
  apply refines_try_except.
  - apply refines_bind; [apply refines_port|]. intros cmd.
    apply refines_bind; [apply refines_port|]. intros _. apply refines_pure.
  - apply refines_print, refines_pure.
Qed.

Lemma refines_scan_register (data : string) :
  Console.refines (scan_register data) (Console.scan_register data).
Proof.
  unfold scan_register, Console.scan_register.
  apply refines_bind; [apply refines_send_command|]. intros sent_ok.
  destruct (negb sent_ok); [apply refines_print, refines_pure|].
  apply refines_bind; [apply refines_port|]. intros resp_status.
  apply refines_bind; [apply refines_port|]. intros buf.
  destruct (negb (is_success resp_status) || (len buf <? 7));
    [apply refines_print, refines_pure|].
  apply refines_bind; [apply refines_port|]. intros hi.
  apply refines_bind; [apply refines_port|]. intros lo.
  apply refines_pure.
Qed.

(** [read_scan_parameters] is the method as it runs while the console
    takes its messages. *)
Lemma refines_read_scan_parameters :
  Console.refines read_scan_parameters Console.read_scan_parameters.
Proof.
  unfold read_scan_parameters, Console.read_scan_parameters.
  apply refines_try_except; [|apply refines_print, refines_pure].
  apply refines_bind; [apply refines_scan_register|].
  intros [start_reg|]; [|apply refines_pure].
  apply refines_bind; [apply refines_scan_register|].
  intros [stop_reg|]; [|apply refines_pure].
  apply refines_bind; [apply refines_scan_register|].
  intros [step_reg|]; [|apply refines_pure].
  apply refines_print, refines_pure.
Qed.

Lemma console_read_scan_parameters (w w' : World) (c : list bool)
  (t : pynum * pynum * pynum) :
  Console.works c ->
  read_scan_parameters w = Ret t w' ->
  exists c', Console.read_scan_parameters w c = Console.Returned t w' c'.
Proof.
  intros W E. pose proof (refines_read_scan_parameters w c W) as R.
  rewrite E in R. destruct R as (c' & R & _). eauto.
Qed.

Lemma console_send_command (address function data : string) (w : World) (c : list bool) :
  match send_command address function data w with
  | Ret true w' => Console.send_command address function data w c = Console.Returned true w' c
  | Ret false w' =>
      Console.send_command address function data w c
      = (if hd false c then Console.Raised w' (tl c) else Console.Returned false w' (tl c))
  | _ => False
  end.
Proof.
  unfold send_command, Console.send_command, try_except, Console.try_except,
    bind, Console.bind, Console.port, Console.print, Console.pure, lift, ret, raise.
  destruct (build_command address function data) as [cmd|].
  - unfold ser_write. destruct (hd false (write_faults w)); [|reflexivity].
    destruct (hd false c); reflexivity.
  - destruct (hd false c); reflexivity.
Qed.

(** A request that fails while the console refuses the message about it
    ends with an exception, that of the port or that of [print]. *)
Lemma console_scan_register_refused (data : string) (w w' : World) (rest : list bool) :
  cycle_failed data w w' ->
  Console.scan_register data w (true :: rest) = Console.Raised w' rest \/
  Console.scan_register data w (true :: rest) = Console.Raised w' (true :: rest).
Proof.
  intros F. unfold Console.scan_register, Console.bind.
  pose proof (console_send_command "01" "03" data w (true :: rest)) as S.
  destruct F as [F|(w1 & F & [(s & R & B)|R])]; rewrite F in S; rewrite S.
  - left. reflexivity.
  - left. cbn [negb]. unfold Console.port at 1. rewrite R.
    unfold Console.port at 1. unfold get_byte_array.
    destruct B as [B|B].
    + destruct s; try reflexivity. contradiction.
    + replace (len (byte_array w') <? 7) with true by (symmetry; apply Z.ltb_lt; lia).
      rewrite orb_true_r. reflexivity.
  - right. cbn [negb]. unfold Console.port at 1. rewrite R. reflexivity.
Qed.

(** A request answered in full prints nothing. *)
Lemma console_scan_register_ok (data : string) (w w' : World) (raw : Z) (c : list bool) :
  register_cycle data w raw w' ->
  Console.scan_register data w c = Console.Returned (Some raw) w' c.
Proof.
  intros C. pose proof (register_cycle_length _ _ _ _ C) as L.
  destruct C as (w1 & S & R & ->).
  unfold Console.scan_register, Console.bind.
  pose proof (console_send_command "01" "03" data w c) as S'. rewrite S in S'. rewrite S'.
  cbn [negb]. unfold Console.port at 1. rewrite R.
  unfold Console.port at 1. unfold get_byte_array. cbn [is_success negb orb].
  replace (len (byte_array w') <? 7) with false by (symmetry; apply Z.ltb_ge; lia).
  unfold Console.port, lift. rewrite !getitem_item by lia. reflexivity.
Qed.

(** On a failure path the plain method returns the tuple (0, 0, 0). *)
Lemma read_scan_parameters_failed (w w' : World) :
  scan_failed w w' -> read_scan_parameters w = Ret zero_tuple w'.
Proof.
  intros [F|[(a & w1 & C1 & F)|(a & b & w1 & w2 & C1 & C2 & F)]].
  - exact (read_scan_parameters_failed_1 _ _ F).
  - exact (read_scan_parameters_failed_2 _ _ _ _ C1 F).
  - exact (read_scan_parameters_failed_3 _ _ _ _ _ _ C1 C2 F).
Qed.

(** On a failure path, a console that refuses the next two messages turns
    the return into an exception. *)
Lemma console_refuses (w w' : World) (rest : list bool) :
  scan_failed w w' ->
  Console.read_scan_parameters w (true :: true :: rest) = Console.Raised w' rest \/
  Console.read_scan_parameters w (true :: true :: rest) = Console.Raised w' (true :: rest).
Proof.
  intros [F|[(a & w1 & C1 & F)|(a & b & w1 & w2 & C1 & C2 & F)]];
    unfold Console.read_scan_parameters, Console.try_except, Console.bind.
  - destruct (console_scan_register_refused _ _ _ (true :: rest) F) as [-> | ->];
      [left|right]; reflexivity.
  - rewrite (console_scan_register_ok _ _ _ _ _ C1).
    destruct (console_scan_register_refused _ _ _ (true :: rest) F) as [-> | ->];
      [left|right]; reflexivity.
  - rewrite (console_scan_register_ok _ _ _ _ _ C1).
    rewrite (console_scan_register_ok _ _ _ _ _ C2).
    destruct (console_scan_register_refused _ _ _ (true :: rest) F) as [-> | ->];
      [left|right]; reflexivity.
Qed.

End ConsoleFacts.

(** C10, as the code has it. While the console takes the messages the
    method prints, [read_scan_parameters] returns the tuple (0, 0, 0) on
    every failure path (the command of a request cannot be sent, its cycle
    ends in another status than "success" or with fewer than seven bytes,
    or an exception is raised), and it returns whatever the device does.
    It is not free of exceptions: the messages are printed inside the [try]
    block and inside the handler, and on every failure path a console that
    refuses the next two messages makes the method raise instead of
    returning. Three registers that hold zero give (1520.0, 1520.0, 0.0):
    the step equals the 0 of the failure tuple, the start and the stop do
    not. *)
Theorem read_scan_parameters_zero_tuple :
  (forall w w' c,
      Console.works c ->
      scan_failed w w' ->
      exists c', Console.read_scan_parameters w c = Console.Returned zero_tuple w' c') /\
  (forall w c,
      Console.works c ->
      exists t w' c', Console.read_scan_parameters w c = Console.Returned t w' c') /\
  (forall w w' rest,
      scan_failed w w' ->
      exists c', Console.read_scan_parameters w (true :: true :: rest) = Console.Raised w' c') /\
  (forall w w1 w2 w3 c,
      Console.works c ->
      register_cycle "10050001" w 0 w1 ->
      register_cycle "10060001" w1 0 w2 ->
      register_cycle "10070001" w2 0 w3 ->
      (exists c',
          Console.read_scan_parameters w c
          = Console.Returned (PyFloat 1520, PyFloat 1520, PyFloat 0) w3 c') /\
      py_eq (PyFloat 1520) (PyInt 0) = false /\
      py_eq (PyFloat 0) (PyInt 0) = true).
Proof.
  split.
  { intros w w' c W F. apply (console_read_scan_parameters _ _ _ _ W).
    apply read_scan_parameters_failed, F. }
  split.
  { intros w c W.
    destruct (read_scan_parameters_cases w)
      as [(w' & E)|(w1 & w2 & w3 & a & b & c0 & C1 & C2 & C3)].
    - destruct (console_read_scan_parameters _ _ _ _ W E) as (c' & R). eauto.
    - pose proof (read_scan_parameters_ok _ _ _ _ _ _ _ C1 C2 C3) as E.
      destruct (console_read_scan_parameters _ _ _ _ W E) as (c' & R). eauto. }
  split.
  { intros w w' rest F. destruct (console_refuses w w' rest F) as [R|R]; eauto. }
  intros w w1 w2 w3 c W C1 C2 C3.
  pose proof (read_scan_parameters_ok _ _ _ _ _ _ _ C1 C2 C3) as E.
  split; [|split; reflexivity].
  exact (console_read_scan_parameters _ _ _ _ W E).
Qed.

Lemma read_scan_parameters_zero_tuple_witness :
  exists w',
    (exists c',
        Console.read_scan_parameters silent_world [false; false]
        = Console.Returned zero_tuple w' c') /\
    (exists c',
        Console.read_scan_parameters silent_world [true; true]
        = Console.Raised w' c').
Proof.
  assert (F : exists w', scan_failed silent_world w').
  { eexists. left. right. eexists. split; [vm_compute; reflexivity|].
    left. exists NoData. split; [vm_compute; reflexivity|]. left. discriminate. }
  destruct F as (w' & F). exists w'. split.
  - refine (proj1 read_scan_parameters_zero_tuple silent_world w' [false; false] _ F).
    reflexivity.
  - exact (proj1 (proj2 (proj2 read_scan_parameters_zero_tuple)) silent_world w' [] F).
Defined.

(** C10 as the specification words it does not hold: a device whose three
    registers hold zero is told apart from a failure, the tuple returned
    being (1520.0, 1520.0, 0.0) and not (0, 0, 0), with the messages
    printed as without them. *)
Lemma zero_registers_not_zero_tuple :
  exists w1 w2 w3 t,
    register_cycle "10050001" zero_registers_world 0 w1 /\
    register_cycle "10060001" w1 0 w2 /\
    register_cycle "10070001" w2 0 w3 /\
    read_scan_parameters zero_registers_world = Ret t w3 /\
    Console.read_scan_parameters zero_registers_world [] = Console.Returned t w3 [] /\
    t <> zero_tuple /\
    py_eq (fst (fst t)) (fst (fst zero_tuple)) = false.
Proof.
  eexists. eexists. eexists. eexists.
  split; [eexists; split; [vm_compute; reflexivity|]; split; vm_compute; reflexivity|].
  split; [eexists; split; [vm_compute; reflexivity|]; split; vm_compute; reflexivity|].
  split; [eexists; split; [vm_compute; reflexivity|]; split; vm_compute; reflexivity|].
  split; [vm_compute; reflexivity|].
  split; [vm_compute; reflexivity|].
  split; [discriminate|reflexivity].
Qed.

(** ** Frames written to the port *)

Section SentFacts.

Lemma poll_turn_sent (expected_len timeout start_time last : Z) (w w' : World) (r : Turn) :
  poll_turn expected_len timeout start_time last w = Ret r w' -> sent w' = sent w.
Proof.
  intros H. unfold_turn H; try discriminate H; invert_ret H; reflexivity.
Qed.

Lemma poll_turn_raise_sent (expected_len timeout start_time last : Z) (w w' : World) :
  poll_turn expected_len timeout start_time last w = Raise w' -> sent w' = sent w.
Proof.
  intros H. unfold_turn H; try discriminate H; injection H as <-; reflexivity.
Qed.

(** Polling writes nothing, however it ends. *)
Lemma poll_loop_sent (expected_len timeout start_time : Z) (fuel : nat) :
  forall (last : Z) (w w' : World),
  (exists s, poll_loop fuel expected_len timeout start_time last w = Ret s w') \/
  poll_loop fuel expected_len timeout start_time last w = Raise w' ->
  sent w' = sent w.
Proof.
  induction fuel as [|fuel IH]; intros last w w' H.
  { destruct H as [[s H]|H]; discriminate H. }
  rewrite poll_loop_unfold in H.
  destruct (poll_turn expected_len timeout start_time last w) as [[s0|l] w0|w0|] eqn:T.
  - destruct H as [[s H]|H]; [|discriminate H].
    injection H as _ <-. exact (poll_turn_sent _ _ _ _ _ _ _ T).
  - rewrite (IH _ _ _ H). exact (poll_turn_sent _ _ _ _ _ _ _ T).
  - destruct H as [[s H]|H]; [discriminate H|].
    injection H as <-. exact (poll_turn_raise_sent _ _ _ _ _ _ T).
  - destruct H as [[s H]|H]; discriminate H.
Qed.

Lemma read_response_sent (expected_len timeout : Z) (w w' : World) :
  (exists s, read_response expected_len timeout w = Ret s w') \/
  read_response expected_len timeout w = Raise w' ->
  sent w' = sent w.
Proof.
  rewrite read_response_unfold. intros H.
  apply poll_loop_sent in H. exact H.
Qed.

(** [send_command] writes its frame, or nothing. *)
Lemma send_command_sent (address function data : string) (w w' : World) (sent_ok : bool) :
  send_command address function data w = Ret sent_ok w' ->
  sent w' = sent w \/
  exists cmd, build_command address function data = Some cmd /\ sent w' = sent w ++ [cmd].
Proof.
  unfold send_command, try_except, bind, lift, ser_write, ret, raise.
  destruct (build_command address function data) as [cmd|].
  - destruct (hd false (write_faults w)); intros H; injection H as _ <-.
    + left. reflexivity.
    + right. exists cmd. auto.
  - intros H. injection H as _ <-. left. reflexivity.
Qed.

Lemma scan_register_sent (data : string) (w w' : World) :
  (exists r, scan_register data w = Ret r w') \/ scan_register data w = Raise w' ->
  exists frames,
  sent w' = sent w ++ frames /\
  forall cmd, In cmd frames -> build_command "01" "03" data = Some cmd.
Proof.
  unfold scan_register, bind.
  destruct (send_command_returns "01" "03" data w) as (b & w1 & S). rewrite S.
  assert (F : exists frames,
    sent w1 = sent w ++ frames /\
    forall cmd, In cmd frames -> build_command "01" "03" data = Some cmd).
  { destruct (send_command_sent _ _ _ _ _ _ S) as [E|(cmd & B & E)].
    - exists []. rewrite app_nil_r. split; [exact E|]. intros c [].
    - exists [cmd]. split; [exact E|]. intros c [<-|[]]. exact B. }
  destruct b; cbn [negb].
  - destruct (read_response 7 (seconds 1) w1) as [s w2|w2|] eqn:R.
    + assert (E : sent w2 = sent w1) by (apply (read_response_sent 7 (seconds 1)); eauto).
      unfold get_byte_array, lift, ret, raise.
      intros H. replace (sent w') with (sent w2); [rewrite E; exact F|].
      destruct (negb (is_success s) || (len (byte_array w2) <? 7)).
      * destruct H as [[r H]|H]; [injection H as _ <-; reflexivity|discriminate H].
      * destruct (getitem (byte_array w2) 3); destruct (getitem (byte_array w2) 4);
          destruct H as [[r H]|H]; try discriminate H;
          first [injection H as _ <- | injection H as <-]; reflexivity.
    + assert (E : sent w2 = sent w1) by (apply (read_response_sent 7 (seconds 1)); eauto).
      intros [[r H]|H]; [discriminate H|]. injection H as <-. rewrite E. exact F.
    + intros [[r H]|H]; discriminate H.
  - unfold ret. intros [[r H]|H]; [|discriminate H]. injection H as _ <-. exact F.
Qed.

(** The frames of the three scan requests are register reads. *)
Lemma scan_request_is_register_read (data : string) (cmd : list byte) :
  In data ["10050001"; "10060001"; "10070001"]%string ->
  build_command "01" "03" data = Some cmd ->
  is_register_read cmd.
Proof.
  intros [<-|[<-|[<-|[]]]] B; vm_compute in B; injection B as <-; reflexivity.
Qed.

Lemma scan_register_frames (data : string) (w w' : World) :
  In data ["10050001"; "10060001"; "10070001"]%string ->
  (exists r, scan_register data w = Ret r w') \/ scan_register data w = Raise w' ->
  exists frames, sent w' = sent w ++ frames /\ Forall is_register_read frames.
Proof.
  intros D H. destruct (scan_register_sent _ _ _ H) as (frames & E & B).
  exists frames. split; [exact E|]. apply Forall_forall. intros cmd I.
  exact (scan_request_is_register_read _ _ D (B _ I)).
Qed.

(** Whatever [read_scan_parameters] writes is a register read. *)
Lemma read_scan_parameters_sent (w w' : World) (t : pynum * pynum * pynum) :
  read_scan_parameters w = Ret t w' ->
  exists frames, sent w' = sent w ++ frames /\ Forall is_register_read frames.
Proof.
  assert (J : forall wa wb wc fa fb,
    sent wb = sent wa ++ fa -> Forall is_register_read fa ->
    sent wc = sent wb ++ fb -> Forall is_register_read fb ->
    exists frames, sent wc = sent wa ++ frames /\ Forall is_register_read frames).
  { intros wa wb wc fa fb Ea Fa Eb Fb. exists (fa ++ fb).
    rewrite Eb, Ea, app_assoc. split; [reflexivity|]. apply Forall_app. auto. }
  unfold read_scan_parameters, try_except, bind.
  destruct (scan_register "10050001" w) as [r1 w1|w1|] eqn:S1; [| |discriminate].
  2:{ unfold ret. intros H. injection H as _ <-.
    apply (scan_register_frames "10050001"); [simpl; auto|right; exact S1]. }
  destruct (scan_register_frames "10050001" w w1) as (f1 & E1 & F1);
    [simpl; auto|left; eauto|].
  destruct r1 as [a|]; [|unfold ret; intros H; injection H as _ <-; eauto].
  destruct (scan_register "10060001" w1) as [r2 w2|w2|] eqn:S2; [| |discriminate].
  2:{ unfold ret. intros H. injection H as _ <-.
    destruct (scan_register_frames "10060001" w1 w2) as (f2 & E2 & F2);
      [simpl; auto|right; exact S2|]. eauto. }
  destruct (scan_register_frames "10060001" w1 w2) as (f2 & E2 & F2);
    [simpl; auto|left; eauto|].
  destruct (J _ _ _ _ _ E1 F1 E2 F2) as (f12 & E12 & F12).
  destruct r2 as [b|]; [|unfold ret; intros H; injection H as _ <-; eauto].
  destruct (scan_register "10070001" w2) as [r3 w3|w3|] eqn:S3; [| |discriminate].
  2:{ unfold ret. intros H. injection H as _ <-.
    destruct (scan_register_frames "10070001" w2 w3) as (f3 & E3 & F3);
      [simpl; auto|right; exact S3|]. eauto. }
  destruct (scan_register_frames "10070001" w2 w3) as (f3 & E3 & F3);
    [simpl; auto|left; eauto|].
  destruct r3 as [c|]; unfold ret; intros H; injection H as _ <-; eauto.
Qed.

End SentFacts.

(** ** Spectrum *)

(** C7. When the reading of the scan parameters fails (the tuple is
    (0, 0, 0)) or the step it decodes is not above zero, [read_spectrum]
    returns no wavelengths and no channel data, in the state in which
    [read_scan_parameters] left the reader and the port: the frames written
    since the call started are register reads (function 03H), none of them
    a request for a channel. *)
Theorem read_spectrum_aborts
  (w w1 : World) (start_wl stop_wl step_wl : pynum) :
  read_scan_parameters w = Ret (start_wl, stop_wl, step_wl) w1 ->
  (start_wl, stop_wl, step_wl) = zero_tuple \/ py_le step_wl (PyInt 0) = true ->
  read_spectrum w = Ret ([], []) w1 /\
  exists frames, sent w1 = sent w ++ frames /\ Forall is_register_read frames.
Proof.
  intros P G. split; [|exact (read_scan_parameters_sent _ _ _ P)].
  assert (L : py_le step_wl (PyInt 0) = true).
  { destruct G as [Z|L]; [|exact L]. injection Z as _ _ ->. reflexivity. }
  unfold read_spectrum, try_except, bind. rewrite P, L. reflexivity.
Qed.

Lemma read_spectrum_aborts_witness :
  (exists w1,
      read_spectrum silent_world = Ret ([], []) w1 /\
      exists frames,
        sent w1 = sent silent_world ++ frames /\ Forall is_register_read frames) /\
  (exists w1,
      read_spectrum zero_registers_world = Ret ([], []) w1 /\
      exists frames,
        sent w1 = sent zero_registers_world ++ frames /\ Forall is_register_read frames).
Proof.
  split.
  - eexists.
    refine (read_spectrum_aborts silent_world _ (PyInt 0) (PyInt 0) (PyInt 0) _ _).
    + vm_compute. reflexivity.
    + left. reflexivity.
  - eexists.
    refine (read_spectrum_aborts zero_registers_world _
              (PyFloat 1520) (PyFloat 1520) (PyFloat 0) _ _).
    + vm_compute. reflexivity.
    + right. reflexivity.
Defined.

Section ChannelFacts.

(** One channel: the request, the read cycle, the samples. *)
Lemma read_channel_unfold (ch_idx base_addr : Z) (w : World) :
  channel_base_addrs ch_idx = Some base_addr ->
  read_channel ch_idx w =
  match send_command "01" "14" (format_04X base_addr ++ format_04X num_points) w with
  | Ret true w1 =>
      match read_response (4 + 2 * num_points) (seconds 1) w1 with
  | Ret s w2 =>
      if is_success s
      then Ret (map (sample (slice 4 (4 + 2 * num_points) (byte_array w2)))
        (range num_points)) w2
      else Ret [] w2
  | Raise w2 => Raise w2
  | OutOfFuel => OutOfFuel
  end
  | Ret false w1 => Ret [] w1
  | Raise w1 => Raise w1
  | OutOfFuel => OutOfFuel
  end.
Proof.
  unfold channel_base_addrs.
  destruct ch_idx as [|[[p|p|]|[p|p|]|]|p]; try discriminate;
    intros H; injection H as <-; unfold read_channel, bind, lift, ret;
    cbn [channel_base_addrs];
    match goal with
    | |- context [send_command ?a ?f ?d w] =>
    let a' := eval vm_compute in a in
    let f' := eval vm_compute in f in
    let d' := eval vm_compute in d in
    change a with a'; change f with f'; change d with d'
    end;
    match goal with
    | |- _ = match send_command _ _ ?d w with _ => _ end =>
    let d' := eval vm_compute in d in change d with d'
    end;
    destruct (send_command _ _ _ w) as [[|] w1|w1|]; try reflexivity;
    cbn [negb];
    destruct (read_response (4 + 2 * num_points) (seconds 1) w1) as [s w2|w2|];
    try reflexivity;
    unfold get_byte_array; destruct (is_success s); reflexivity.
Qed.

Lemma samples_length (data_bytes : list byte) :
  List.length (map (sample data_bytes) (range num_points)) = 2051%nat.
Proof.
  unfold range. rewrite !length_map, length_seq. reflexivity.
Qed.

(** A channel ends with no samples or 2051 of them, or with an exception. *)
Lemma read_channel_cases (ch_idx : Z) (w : World) :
  In ch_idx (range 4) ->
  (exists c w', read_channel ch_idx w = Ret c w' /\
    (c = [] \/ List.length c = 2051%nat)) \/
  (exists w', read_channel ch_idx w = Raise w').
Proof.
  intros I.
  assert (B : exists base_addr, channel_base_addrs ch_idx = Some base_addr).
  { destruct I as [<-|[<-|[<-|[<-|[]]]]]; eexists; reflexivity. }
  destruct B as [base_addr B]. rewrite (read_channel_unfold _ _ _ B).
  destruct (send_command_returns "01" "14"
    (format_04X base_addr ++ format_04X num_points) w) as ([|] & w1 & S);
    rewrite S; [|left; eauto].
  destruct (read_response (4 + 2 * num_points) (seconds 1) w1) as [s w2|w2|] eqn:R.
  - destruct (is_success s); left; eexists; eexists; split;
      try reflexivity; [right; apply samples_length | left; reflexivity].
  - right. eauto.
  - exfalso. exact (read_response_total _ _ _ R).
Qed.

End ChannelFacts.

Section ChannelRuns.

Lemma read_channel_length (ch_idx : Z) (w w' : World) (c : list Z) :
  In ch_idx (range 4) ->
  read_channel ch_idx w = Ret c w' ->
  c = [] \/ List.length c = 2051%nat.
Proof.
  intros I R.
  destruct (read_channel_cases ch_idx w I) as [(c' & w2 & E & L)|(w2 & E)];
    rewrite R in E; [|discriminate E].
  injection E as -> _. exact L.
Qed.

(** The loop over the channels, unrolled. *)
Lemma channel_loop_unfold (w1 : World) :
  channel_loop (range 4) [] w1 =
  match read_channel 0 w1 with
  | Ret c0 w2 =>
      match read_channel 1 w2 with
      | Ret c1 w3 =>
          match read_channel 2 w3 with
          | Ret c2 w4 =>
              match read_channel 3 w4 with
              | Ret c3 w5 => Ret [c0; c1; c2; c3] w5
              | Raise w' => Raise w'
              | OutOfFuel => OutOfFuel
              end
          | Raise w' => Raise w'
          | OutOfFuel => OutOfFuel
          end
      | Raise w' => Raise w'
      | OutOfFuel => OutOfFuel
      end
  | Raise w' => Raise w'
  | OutOfFuel => OutOfFuel
  end.
Proof.
  change (range 4) with [0; 1; 2; 3]. cbn [channel_loop app]. unfold bind, ret.
  reflexivity.
Qed.

Lemma channel_loop_read (w1 w5 : World) (c0 c1 c2 c3 : list Z) :
  channels_read w1 c0 c1 c2 c3 w5 ->
  channel_loop (range 4) [] w1 = Ret [c0; c1; c2; c3] w5.
Proof.
  intros (w2 & w3 & w4 & R0 & R1 & R2 & R3).
  rewrite channel_loop_unfold, R0, R1, R2, R3. reflexivity.
Qed.

Lemma channel_loop_raises (w1 w' : World) :
  channel_raises w1 w' -> channel_loop (range 4) [] w1 = Raise w'.
Proof.
  intros [R0|(c0 & w2 & R0 & [R1|(c1 & w3 & R1 & [R2|(c2 & w4 & R2 & R3)])])];
    rewrite channel_loop_unfold, R0; try reflexivity;
    rewrite R1; try reflexivity;
    rewrite R2; try reflexivity;
    rewrite R3; reflexivity.
Qed.

(** The channels are all read, or the read of one of them raises. *)
Lemma channels_read_or_raise (w1 : World) :
  (exists c0 c1 c2 c3 w5, channels_read w1 c0 c1 c2 c3 w5) \/
  (exists w', channel_raises w1 w').
Proof.
  destruct (read_channel_cases 0 w1) as [(c0 & w2 & R0 & _)|(w' & R0)];
    [simpl; auto| |right; exists w'; left; exact R0].
  destruct (read_channel_cases 1 w2) as [(c1 & w3 & R1 & _)|(w' & R1)];
    [simpl; auto| |right; exists w'; right; exists c0, w2; split; [exact R0|];
                   left; exact R1].
  destruct (read_channel_cases 2 w3) as [(c2 & w4 & R2 & _)|(w' & R2)];
    [simpl; auto| |right; exists w'; right; exists c0, w2; split; [exact R0|];
                   right; exists c1, w3; split; [exact R1|]; left; exact R2].
  destruct (read_channel_cases 3 w4) as [(c3 & w5 & R3 & _)|(w' & R3)];
    [simpl; auto 10| |right; exists w'; right; exists c0, w2; split; [exact R0|];
                      right; exists c1, w3; split; [exact R1|];
                      right; exists c2, w4; split; [exact R2|exact R3]].
  left. exists c0, c1, c2, c3, w5, w2, w3, w4. auto.
Qed.

End ChannelRuns.

(** C8, as the code has it. When the scan parameters pass the step test,
    the four channels are read in turn, each from the state the one before
    it left. If none of these reads raises, [read_spectrum] returns the
    wavelengths start + i * step for i in 0..2051 with exactly four channel
    lists, those the reads returned, each empty or of the 2051 samples that
    the wavelengths count. If one of them raises, it returns no wavelengths
    and no channels, in the state the exception left. One of the two
    happens. A channel whose command cannot be sent, or whose read cycle
    ends in another status than "success", gives the empty list; one whose
    cycle succeeds gives 2051 samples. *)
Theorem read_spectrum_channels
  (w w1 : World) (start_wl stop_wl step_wl : pynum) :
  read_scan_parameters w = Ret (start_wl, stop_wl, step_wl) w1 ->
  py_le step_wl (PyInt 0) = false ->
  (forall c0 c1 c2 c3 w5,
      channels_read w1 c0 c1 c2 c3 w5 ->
      exists wavelengths,
        read_spectrum w = Ret (wavelengths, [c0; c1; c2; c3]) w5 /\
        wavelengths =
          map (fun i => py_add start_wl (py_mul (PyInt i) step_wl)) (range 2051) /\
        List.length wavelengths = 2051%nat /\
        Forall (fun c => c = [] \/ List.length c = List.length wavelengths)
          [c0; c1; c2; c3]) /\
  (forall w',
      channel_raises w1 w' ->
      read_spectrum w = Ret ([], []) w') /\
  ((exists c0 c1 c2 c3 w5, channels_read w1 c0 c1 c2 c3 w5) \/
   (exists w', channel_raises w1 w')) /\
  (forall ch_idx base_addr wa,
      channel_base_addrs ch_idx = Some base_addr ->
      let request :=
        send_command "01" "14" (format_04X base_addr ++ format_04X num_points) in
      (forall wb, request wa = Ret false wb -> read_channel ch_idx wa = Ret [] wb) /\
      (forall wb wc s,
          request wa = Ret true wb ->
          read_response (4 + 2 * num_points) (seconds 1) wb = Ret s wc ->
          s <> Success ->
          read_channel ch_idx wa = Ret [] wc) /\
      (forall wb wc,
          request wa = Ret true wb ->
          read_response (4 + 2 * num_points) (seconds 1) wb = Ret Success wc ->
          exists c,
            read_channel ch_idx wa = Ret c wc /\ List.length c = 2051%nat /\
            c = map (sample (slice 4 (4 + 2 * num_points) (byte_array wc)))
                  (range num_points))).
Proof.
  intros P G.
  assert (W : List.length
                (map (fun i => py_add start_wl (py_mul (PyInt i) step_wl)) (range 2051))
              = 2051%nat).
  { unfold range. rewrite !length_map, length_seq. reflexivity. }
  split; [|split; [|split]].
  - intros c0 c1 c2 c3 w5 C. pose proof (channel_loop_read _ _ _ _ _ _ C) as L.
    destruct C as (w2 & w3 & w4 & R0 & R1 & R2 & R3).
    eexists. split; [|split; [reflexivity|split; [exact W|]]].
    + unfold read_spectrum, try_except, bind. rewrite P, G, L. reflexivity.
    + rewrite W.
      apply Forall_cons; [apply (read_channel_length 0 _ _ _ ltac:(simpl; auto) R0)|].
      apply Forall_cons; [apply (read_channel_length 1 _ _ _ ltac:(simpl; auto) R1)|].
      apply Forall_cons; [apply (read_channel_length 2 _ _ _ ltac:(simpl; auto) R2)|].
      apply Forall_cons; [apply (read_channel_length 3 _ _ _ ltac:(simpl; auto 10) R3)|].
      apply Forall_nil.
  - intros w' C. unfold read_spectrum, try_except, bind.
    rewrite P, G, (channel_loop_raises _ _ C). reflexivity.
  - apply channels_read_or_raise.
  - intros ch_idx base_addr wa B request. unfold request.
    repeat split.
    + intros wb S. rewrite (read_channel_unfold _ _ _ B), S. reflexivity.
    + intros wb wc s S R N. rewrite (read_channel_unfold _ _ _ B), S, R.
      destruct s; try reflexivity. contradiction.
    + intros wb wc S R. rewrite (read_channel_unfold _ _ _ B), S, R.
      eexists. split; [reflexivity|]. split; [apply samples_length|reflexivity].
Qed.

Lemma read_spectrum_channels_witness :
  exists wavelengths c0 c3 w5,
    read_spectrum spectrum_world = Ret (wavelengths, [c0; []; []; c3]) w5 /\
    List.length wavelengths = 2051%nat /\
    List.length c0 = 2051%nat /\
    List.length c3 = 2051%nat.
Proof.
  assert (P : read_scan_parameters spectrum_world
              = Ret (PyFloat 1527, PyFloat 1568, PyFloat 0.02) _)
    by (vm_compute; reflexivity).
  match type of P with
  | _ = Ret _ ?w1 =>
      assert (R0 : read_channel 0 w1 = Ret _ _) by (vm_compute; reflexivity)
  end.
  match type of R0 with
  | _ = Ret _ ?w2 =>
      assert (R1 : read_channel 1 w2 = Ret [] _) by (vm_compute; reflexivity)
  end.
  match type of R1 with
  | _ = Ret _ ?w3 =>
      assert (R2 : read_channel 2 w3 = Ret [] _) by (vm_compute; reflexivity)
  end.
  match type of R2 with
  | _ = Ret _ ?w4 =>
      assert (R3 : read_channel 3 w4 = Ret _ _) by (vm_compute; reflexivity)
  end.
  destruct (proj1 (read_spectrum_channels spectrum_world _ _ _ _ P eq_refl)
              _ _ _ _ _
              (ex_intro _ _ (ex_intro _ _ (ex_intro _ _
                 (conj R0 (conj R1 (conj R2 R3)))))))
    as (wavelengths & R & _ & L & _).
  eexists. eexists. eexists. eexists.
  split; [exact R|]. split; [exact L|]. split; vm_compute; reflexivity.
Defined.

(** The shape of the spectrum read from [spectrum_world]: the second and
    the third channel fail, the other two are complete. *)
Example spectrum_world_shape :
  match read_spectrum spectrum_world with
  | Ret (wavelengths, spectrum) _ =>
      (List.length wavelengths, map (@List.length Z) spectrum,
       firstn 3 wavelengths, map (firstn 2) spectrum)
  | _ => (O, [], [], [])
  end
  = (2051%nat, [2051; 0; 0; 2051]%nat,
     [PyFloat 1527; PyFloat 1527.02; PyFloat 1527.04],
     [[0x0101; 0x0101]; []; []; [0x0202; 0x0202]]).
Proof. vm_compute. reflexivity. Qed.

(** C8 as the specification words it does not hold: the scan parameters
    decode, the port fails while the first channel is read, and
    [read_spectrum] returns no channel list at all instead of four. *)
Lemma channel_fault_returns_no_channels :
  exists w1 w',
    read_scan_parameters faulty_world
    = Ret (PyFloat 1527, PyFloat 1568, PyFloat 0.02) w1 /\
    py_le (PyFloat 0.02) (PyInt 0) = false /\
    read_channel 0 w1 = Raise w' /\
    read_spectrum faulty_world = Ret ([], []) w' /\
    List.length (@nil (list Z)) <> 4%nat.
Proof.
  eexists. eexists.
  split; [vm_compute; reflexivity|].
  split; [reflexivity|].
  split; [vm_compute; reflexivity|].
  split; [vm_compute; reflexivity|].
  discriminate.
Qed.

(** ** Centre wavelengths *)

Section CenterFacts.

Lemma firstn4_skipn (n : nat) :
  forall l : list byte,
  (n + 4 <= List.length l)%nat ->
  firstn 4 (skipn n l) =
  [nth n l x00; nth (n + 1) l x00; nth (n + 2) l x00; nth (n + 3) l x00].
Proof.
  induction n as [|n IH]; intros l L.
  - destruct l as [|a [|b [|c [|d rest]]]]; simpl in L; try lia. reflexivity.
  - destruct l as [|x l]; simpl in L; [lia|].
    cbn [skipn Nat.add nth]. apply IH. lia.
Qed.

Lemma unpack_slice (data : list byte) (idx : Z) :
  0 <= idx -> idx + 4 <= len data ->
  unpack_float_be (slice idx (idx + 4) data) = Some (float_at data idx).
Proof.
  intros P L. unfold slice.
  replace (Z.to_nat (idx + 4 - idx)) with 4%nat by lia.
  rewrite firstn4_skipn by (unfold len in L; lia).
  unfold unpack_float_be, float_at, item.
  replace (Z.to_nat (idx + 1)) with (Z.to_nat idx + 1)%nat by lia.
  replace (Z.to_nat (idx + 2)) with (Z.to_nat idx + 2)%nat by lia.
  replace (Z.to_nat (idx + 3)) with (Z.to_nat idx + 3)%nat by lia.
  reflexivity.
Qed.

Lemma item_slice (buf : list byte) (lo hi j : Z) :
  0 <= lo -> 0 <= j < hi - lo -> item (slice lo hi buf) j = item buf (lo + j).
Proof.
  intros P R. unfold item, slice.
  rewrite nth_firstn.
  replace (Z.to_nat j <? Z.to_nat (hi - lo))%nat with true
    by (symmetry; apply Nat.ltb_lt; lia).
  rewrite nth_skipn. f_equal. f_equal. lia.
Qed.

Lemma float_at_slice (buf : list byte) (lo hi idx : Z) :
  0 <= lo -> 0 <= idx -> idx + 4 <= hi - lo ->
  float_at (slice lo hi buf) idx = float_at buf (lo + idx).
Proof.
  intros P Q R. unfold float_at.
  rewrite !item_slice by lia.
  replace (lo + (idx + 1)) with (lo + idx + 1) by lia.
  replace (lo + (idx + 2)) with (lo + idx + 2) by lia.
  replace (lo + (idx + 3)) with (lo + idx + 3) by lia.
  reflexivity.
Qed.

Lemma len_slice (buf : list byte) (lo hi : Z) :
  0 <= lo <= hi -> hi <= len buf -> len (slice lo hi buf) = hi - lo.
Proof.
  intros R L. unfold len, slice in *. rewrite length_firstn, length_skipn. lia.
Qed.

(** The loop keeps, in their order, the decoded values above zero. *)
Lemma center_loop_filter (data : list byte) (indices : list Z) :
  forall results,
  Forall (fun i => 0 <= i /\ i * 4 + 4 <= len data) indices ->
  center_loop indices data results =
  Some (results ++
    filter (fun v => (0 <? v)%float) (map (fun i => float_at data (i * 4)) indices)).
Proof.
  induction indices as [|i rest IH]; intros results F.
  - simpl. rewrite app_nil_r. reflexivity.
  - inversion F as [|? ? [P L] F']; subst.
    cbn [center_loop map filter]. rewrite unpack_slice by lia.
    rewrite (IH _ F').
    change zero with 0%float.
    destruct (0 <? float_at data (i * 4))%float; [|reflexivity].
    rewrite <- app_assoc. reflexivity.
Qed.

Lemma range_bounds (n i : Z) : In i (range n) -> 0 <= i < n.
Proof.
  unfold range. intros I. apply in_map_iff in I. destruct I as (k & <- & I).
  apply in_seq in I. lia.
Qed.

End CenterFacts.

(** C9. When the request is sent and the read cycle succeeds,
    [read_center_wavelengths] returns the 32 big-endian binary32 values that
    follow the four-byte header of the response, in their order, without
    those that are not above zero: at most 32 values, all above zero. *)
Theorem read_center_wavelengths_filter (address : string) (w w1 w2 : World) :
  send_command address "14" "03000200" w = Ret true w1 ->
  read_response (4 + 1024) (seconds 20) w1 = Ret Success w2 ->
  exists results,
    read_center_wavelengths address w = Ret results w2 /\
    results =
      filter (fun v => (0 <? v)%float)
        (map (fun i => float_at (byte_array w2) (4 + 4 * i)) (range 32)) /\
    (List.length results <= 32)%nat /\
    Forall (fun v => (0 <? v)%float = true) results.
Proof.
  intros S R. pose proof (read_response_success _ _ _ _ R) as L.
  eexists. split; [|split; [reflexivity|split]].
  - unfold read_center_wavelengths, bind. rewrite S. cbn [negb]. rewrite R.
    cbn [is_success negb]. unfold get_byte_array.
    rewrite center_loop_filter.
    + unfold lift, ret. cbn [app]. f_equal. f_equal.
      apply map_ext_in. intros i I. apply range_bounds in I.
      rewrite float_at_slice by lia. f_equal. lia.
    + apply Forall_forall. intros i I. apply range_bounds in I.
      rewrite len_slice by lia. lia.
  - etransitivity; [apply filter_length_le|].
    unfold range. rewrite !length_map, length_seq. reflexivity.
  - apply Forall_forall. intros v I. apply filter_In in I. apply I.
Qed.

Lemma read_center_wavelengths_filter_witness :
  exists w2,
    read_center_wavelengths "01" center_world = Ret [1550; 1551.199951171875]%float w2.
Proof.
  eexists.
  assert (S : send_command "01" "14" "03000200" center_world = Ret true _)
    by (vm_compute; reflexivity).
  match type of S with
  | _ = Ret true ?w1 =>
      assert (R : read_response (4 + 1024) (seconds 20) w1 = Ret Success _)
        by (vm_compute; reflexivity)
  end.
  destruct (read_center_wavelengths_filter "01" center_world _ _ S R)
    as (results & E & V & _).
  rewrite E, V. vm_compute. reflexivity.
Defined.

(** * Examples

    The decoders and the builder on the values of section 8 of the
    specification, and the scripted devices one turn into their cycles. *)

Example calc_crc16_read_1005 :
  calc_crc16 [x01; x03; x10; x05; x00; x01] = 0xCB90.
Proof. reflexivity. Qed.

Example build_command_read_1005 :
  build_command "01" "03" "10050001" =
  Some [x01; x03; x10; x05; x00; x01; x90; xcb].
Proof. reflexivity. Qed.

Example build_command_malformed : build_command "01" "0" "1005" = None.
Proof. reflexivity. Qed.

Example convert_bytes_to_uint16_1234 :
  convert_bytes_to_uint16 [x12; x34] = Some 0x1234.
Proof. reflexivity. Qed.

Example convert_bytes_to_float_1527_5 :
  convert_bytes_to_float [x44; xbe; xf0; x00] = Some 1527.5%float.
Proof. reflexivity. Qed.

Example sample_truncated :
  map (sample [x00; x01; x00; x02]) (range 3) = [1; 2; 0].
Proof. reflexivity. Qed.

Example format_04X_values :
  (format_04X 0x2000, format_04X num_points) = ("2000", "0803")%string.
Proof. reflexivity. Qed.

Example exception_world_first_turn :
  poll_turn 3 (seconds 1) 1000 1000 (cycle_start exception_world)
  = Ret (Continue 3000) exception_second_turn.
Proof. reflexivity. Qed.

Example silent_world_first_turn :
  poll_turn 7 (seconds 1) 50000 50000 (cycle_start silent_world)
  = Ret (Continue 50000) silent_second_turn.
Proof. reflexivity. Qed.
